(** * AI Quiz Generator front end: embedding and verified properties

    The React client under [frontend/src] is embedded shallowly:
    - JSON payloads and JavaScript values as [JsValue], objects as finite
      maps from property names to values;
    - [services/api.js] as functions building the HTTP request each call
      sends;
    - an [async] handler as a program of state updates and awaited calls
      ([Async]), run one synchronous segment at a time;
    - each component as its [useState] slots (a record), its handlers
      (programs over that record) and its render function (a view).

    The setter calls a handler makes between two [await]s are applied
    together (React batches them), so a component is rendered in the states
    in which a handler awaits or returns.  A view keeps what the claims are
    about: texts, the data-dependent class names, handlers and the props
    handed to child components; [components/Modal.jsx] is not expanded, the
    [<Modal>] element is kept with its props and children.  Two pieces of
    the platform are modelled where the components lean on them: the value
    a url input reports for the text in it ([UrlInput]) and what React
    makes of a JavaScript value placed as a child ([ReactDom]).  A
    submission is the submit handler running. *)

From stdpp Require Import gmap strings list pretty.

Set Warnings "-register-all".

(** ** JavaScript values *)

(** Numbers are the integer-valued ones; nothing in the client computes
    with them, only their truthiness is ever consulted. *)
Inductive JsValue : Type :=
  | JUndefined
  | JNull
  | JBool (b : bool)
  | JNum (n : Z)
  | JStr (s : string)
  | JArr (items : list JsValue)
  | JObj (fields : gmap string JsValue).

(** [ToBoolean]: what [!v], [v && _] and [v || _] test. *)
Definition truthy (v : JsValue) : bool :=
  match v with
  | JUndefined | JNull => false
  | JBool b => b
  | JNum n => negb (n =? 0)%Z
  | JStr s => negb (String.eqb s "")
  | JArr _ | JObj _ => true
  end.

(** [a || b] *)
Definition js_or (a b : JsValue) : JsValue := if truthy a then a else b.

(** [v?.k] for a property name [k] that no built-in prototype defines
    (such as [data] or [detail]): [undefined] on [null] and [undefined],
    the field on an object that has it, [undefined] on everything else. *)
Definition opt_chain (v : JsValue) (k : string) : JsValue :=
  match v with
  | JObj fields => default JUndefined (fields !! k)
  | _ => JUndefined
  end.

(** ** Data model (the backend's payloads) *)

Record KeyEntities := {
  people : list string;
  organizations : list string;
  locations : list string
}.

Record QuizQuestion := {
  question : string;
  options : list string;
  answer : string;
  difficulty : string;
  explanation : string
}.

Record QuizRecord := {
  title : string;
  summary : string;
  key_entities : KeyEntities;
  quiz : list QuizQuestion;
  related_topics : list string
}.

(** A row identifier as JSON delivers it: a number (a non-negative integer
    small enough for JavaScript to print all its digits) or a string. *)
Inductive identifier :=
  | IdNum (n : N)
  | IdStr (s : string).

(** [Number.MAX_SAFE_INTEGER]: up to it every integer is a JavaScript
    number of its own and is printed with all its digits. *)
Definition MAX_SAFE_INTEGER : N := 2 ^ 53 - 1.

(** The ids a JavaScript value can stand for exactly: any string, and the
    numbers up to [MAX_SAFE_INTEGER]. *)
Definition safe_id (i : identifier) : Prop :=
  match i with
  | IdNum n => (n <= MAX_SAFE_INTEGER)%N
  | IdStr _ => True
  end.

(** The string a template literal [`${id}`] produces.  For a number this is
    JavaScript's printing on the [safe_id] range only (from 1e21 on it
    prints an exponent); what is proved of the digits of a numeric id
    assumes [safe_id]. *)
Definition ToString (i : identifier) : string :=
  match i with
  | IdNum n => pretty n
  | IdStr s => s
  end.

Module HistoryEntry.
Record t := {
  id : identifier;
  title : string;
  url : string;
  date_generated : string
}.
End HistoryEntry.

(** The two kinds of success body the backend sends. *)
Inductive Payload := AQuizRecord | AHistory.

Definition payload (P : Payload) : Type :=
  match P with
  | AQuizRecord => QuizRecord
  | AHistory => list HistoryEntry.t
  end.

(** ** HTTP requests and settled promises *)

Inductive Method := GET | POST.

Record Request := {
  method : Method;
  baseURL : string;
  path : string;
  headers : gmap string string;
  body : option JsValue
}.

(** A pending call: the request as handed to axios (method, base URL, url,
    the instance's default headers, data), tagged with the kind of body a
    success response to it carries.  What the browser finally puts on the
    wire from it (axios dropping the content type of a body-less request,
    the URL parser resolving the url) is not modelled. *)
Record Call (P : Payload) := { request : Request }.
Arguments request {P} _.

Record AxiosResponse (D : Type) := { data : D }.
Arguments data {D} _.

(** What axios rejects with: [response] is [undefined] when no response
    was received, otherwise an object whose [data] is the parsed body. *)
Record AxiosError := { response : JsValue }.

Inductive Settled (D : Type) :=
  | Fulfilled (r : AxiosResponse D)
  | Rejected (err : AxiosError).
Arguments Fulfilled {D} _.
Arguments Rejected {D} _.

(** ** services/api.js *)

Module Api.

Definition apiClient_baseURL : string := "http://localhost:8000".
Definition apiClient_headers : gmap string string :=
  {[ "Content-Type" := "application/json" ]}.

Definition apiClient_post {P} (p : string) (json : JsValue) : Call P :=
  {| request := {| method := POST; baseURL := apiClient_baseURL; path := p;
                   headers := apiClient_headers; body := Some json |} |}.

Definition apiClient_get {P} (p : string) : Call P :=
  {| request := {| method := GET; baseURL := apiClient_baseURL; path := p;
                   headers := apiClient_headers; body := None |} |}.

Definition generateQuiz (url : string) : Call AQuizRecord :=
  apiClient_post "/generate_quiz" (JObj {[ "url" := JStr url ]}).

Definition getHistory : Call AHistory :=
  apiClient_get "/history".

Definition getQuizById (quiz_id : identifier) : Call AQuizRecord :=
  apiClient_get ("/quiz/" +:+ ToString quiz_id).

End Api.

(** ** Async handlers over a component's state *)

Section Async.
Context {S : Type}.

(** A handler body: setter calls, and [await]s whose continuation
    receives how the promise settled ([try]/[catch] is the match on it). *)
Inductive Async : Type :=
  | Return
  | Update (f : S -> S) (k : Async)
  | Await {P : Payload} (c : Call P) (k : Settled (payload P) -> Async).

(** [p ;; q]: the statements of [q] after those of [p]. *)
Fixpoint seq (p q : Async) : Async :=
  match p with
  | Return => q
  | Update f k => Update f (seq k q)
  | Await c k => Await c (fun o => seq (k o) q)
  end.

(** One setter call. *)
Definition setState (f : S -> S) : Async := Update f Return.
Definition await {P} (c : Call P) (k : Settled (payload P) -> Async) : Async :=
  Await c k.

(** Where a synchronous segment stops. *)
Inductive Paused : Type :=
  | Finished
  | Awaiting {P : Payload} (c : Call P) (k : Settled (payload P) -> Async).

(** Run up to the first [await] (or the end): the state the next render
    sees, and what the handler is waiting for. *)
Fixpoint run_sync (p : Async) (s : S) : S * Paused :=
  match p with
  | Return => (s, Finished)
  | Update f k => run_sync k (f s)
  | Await c k => (s, Awaiting c k)
  end.

(** The request a paused handler has just sent, if any. *)
Definition issued (w : Paused) : option Request :=
  match w with
  | Finished => None
  | Awaiting c _ => Some (request c)
  end.

(** How the backend answers each call. *)
Definition Network : Type := forall P, Call P -> Settled (payload P).

(** Run a handler to completion and list the requests it sends, in order.
    While a request is in flight other handlers of the component may run;
    [meanwhile] is what they do to the state before the promise settles. *)
Fixpoint exec (net : Network) (meanwhile : S -> S) (p : Async) (s : S)
  : S * list Request :=
  match p with
  | Return => (s, [])
  | Update f k => exec net meanwhile k (f s)
  | Await c k =>
      let '(s', sent) := exec net meanwhile (k (net _ c)) (meanwhile s) in
      (s', request c :: sent)
  end.

(** Nothing else happens while the request is in flight. *)
Definition uninterrupted : S -> S := fun s => s.

(** *** A mounted component

    Its state, the calls still in flight (each with the rest of the
    handler that awaits it) and the log of requests sent so far. *)
Record InFlight := {
  in_P : Payload;
  in_call : Call in_P;
  in_k : Settled (payload in_P) -> Async
}.

Record Component := {
  state : S;
  pending : list InFlight;
  sent : list Request
}.

(** Run a handler (or the rest of one) up to its next [await]. *)
Definition dispatch (p : Async) (c : Component) : Component :=
  match run_sync p (state c) with
  | (s', Finished) =>
      {| state := s'; pending := pending c; sent := sent c |}
  | (s', Awaiting call k) =>
      {| state := s';
         pending := pending c ++ [ {| in_call := call; in_k := k |} ];
         sent := sent c ++ [ request call ] |}
  end.

(** The promise of [f], in flight between [before] and [after], settles. *)
Definition settle (before : list InFlight) (f : InFlight)
  (after : list InFlight) (o : Settled (payload (in_P f))) (c : Component)
  : Component :=
  dispatch (in_k f o)
    {| state := state c; pending := before ++ after; sent := sent c |}.

End Async.
Arguments Async : clear implicits.
Arguments Paused : clear implicits.
Arguments InFlight : clear implicits.
Arguments Component : clear implicits.

Declare Scope async_scope.
Delimit Scope async_scope with async.
Bind Scope async_scope with Async.
Notation "p ;; q" := (seq p%async q%async)
  (at level 100, q at level 200, right associativity) : async_scope.

(** ** components/QuizDisplay.jsx *)

Module QuizDisplay.

(** The two class lists the option paragraph chooses between. *)
Definition answer_class : string := "bg-green-100 font-medium text-green-900".
Definition other_class : string := "text-gray-700".

(** [<p key={i} className={...}>{option}</p>]; [className] keeps the part
    that depends on the data. *)
Record OptionView := {
  option_key : nat;
  option_className : string;
  option_text : string
}.

Record QuestionView := {
  question_key : nat;
  question_heading : string;
  badge_className : string;
  badge_text : string;
  option_views : list OptionView;
  explanation_text : string
}.

(** [<EntityList title items />]: a heading and one [<li key={i}>] per item. *)
Record EntityListView := {
  list_title : string;
  list_items : list (nat * string)
}.

Record View := {
  heading : string;
  summary_text : string;
  entity_lists : list EntityListView;
  question_views : list QuestionView;
  topic_tags : list (nat * string)
}.

Definition EntityList (title : string) (items : list string) : EntityListView :=
  {| list_title := title; list_items := imap (fun i item => (i, item)) items |}.

Definition render_option (q : QuizQuestion) (i : nat) (option : string) : OptionView :=
  {| option_key := i;
     option_className :=
       if String.eqb option (answer q) then answer_class else other_class;
     option_text := option |}.

Definition render_question (index : nat) (q : QuizQuestion) : QuestionView :=
  {| question_key := index;
     question_heading := pretty (index + 1) +:+ ". " +:+ question q;
     badge_className :=
       if String.eqb (difficulty q) "easy" then "bg-green-100 text-green-800"
       else if String.eqb (difficulty q) "medium" then "bg-yellow-100 text-yellow-800"
       else "bg-red-100 text-red-800";
     badge_text := difficulty q;
     option_views := imap (render_option q) (options q);
     explanation_text := explanation q |}.

(** [if (!quizData) return null], otherwise the rendered record. *)
Definition QuizDisplay (quizData : option QuizRecord) : option View :=
  match quizData with
  | None => None
  | Some r =>
      Some {| heading := title r;
              summary_text := summary r;
              entity_lists :=
                [ EntityList "People" (people (key_entities r));
                  EntityList "Organizations" (organizations (key_entities r));
                  EntityList "Locations" (locations (key_entities r)) ];
              question_views := imap render_question (quiz r);
              topic_tags := imap (fun index topic => (index, topic)) (related_topics r) |}
  end.

(** An option paragraph is marked as the answer when it carries the
    highlighting classes. *)
Definition marked (o : OptionView) : bool :=
  String.eqb (option_className o) answer_class.

Definition marked_options (qv : QuestionView) : list OptionView :=
  filter (fun o => marked o = true) (option_views qv).

End QuizDisplay.

(** ** What the browser and React do around the components *)

(** The value of an [<input type="url">].  Whatever text the user leaves in
    the field, the value the element reports is that text after HTML's
    value sanitization for the url type: line feeds and carriage returns
    removed, then leading and trailing ASCII white space stripped. *)
Module UrlInput.

Definition is_newline (a : Ascii.ascii) : bool :=
  let n := Ascii.nat_of_ascii a in (n =? 10)%nat || (n =? 13)%nat.

(** ASCII white space as HTML defines it: tab, line feed, form feed,
    carriage return and space. *)
Definition is_ascii_whitespace (a : Ascii.ascii) : bool :=
  let n := Ascii.nat_of_ascii a in
  (n =? 9)%nat || (n =? 10)%nat || (n =? 12)%nat || (n =? 13)%nat || (n =? 32)%nat.

Definition strip_newlines (l : list Ascii.ascii) : list Ascii.ascii :=
  List.filter (fun a => negb (is_newline a)) l.

Fixpoint strip_leading (l : list Ascii.ascii) : list Ascii.ascii :=
  match l with
  | [] => []
  | a :: rest => if is_ascii_whitespace a then strip_leading rest else l
  end.

Definition strip_trailing (l : list Ascii.ascii) : list Ascii.ascii :=
  rev (strip_leading (rev l)).

Definition sanitize (text : string) : string :=
  String.string_of_list_ascii
    (strip_trailing (strip_leading (strip_newlines
       (String.list_ascii_of_string text)))).

End UrlInput.

(** How React renders a JavaScript value placed as a child ([{value}]). *)
Module ReactDom.

(** A text node: a string as it is, or a number printed. *)
Inductive TextNode :=
  | StringNode (s : string)
  | NumberNode (n : Z).

(** The text nodes a child value becomes: strings and numbers are text,
    [null], [undefined] and booleans render nothing, an array renders its
    elements in order, and an object makes the render throw ("Objects are
    not valid as a React child"), which is [None]. *)
Fixpoint paint_child (v : JsValue) : option (list TextNode) :=
  match v with
  | JUndefined | JNull | JBool _ => Some []
  | JNum n => Some [ NumberNode n ]
  | JStr s => Some [ StringNode s ]
  | JArr items =>
      (fix paint_children (l : list JsValue) : option (list TextNode) :=
         match l with
         | [] => Some []
         | x :: rest =>
             match paint_child x, paint_children rest with
             | Some a, Some b => Some (a ++ b)
             | _, _ => None
             end
         end) items
  | JObj _ => None
  end.

End ReactDom.

(** ** tabs/GenerateQuizTab.jsx *)

Module GenerateQuizTab.

(** The four [useState] slots. *)
Record State := {
  url : string;
  loading : bool;
  error : JsValue;
  quizData : option QuizRecord
}.

Definition initial : State :=
  {| url := ""; loading := false; error := JNull; quizData := None |}.

Definition setUrl (v : string) : Async State :=
  setState (fun s => {| url := v; loading := loading s;
                        error := error s; quizData := quizData s |}).
Definition setLoading (v : bool) : Async State :=
  setState (fun s => {| url := url s; loading := v;
                        error := error s; quizData := quizData s |}).
Definition setError (v : JsValue) : Async State :=
  setState (fun s => {| url := url s; loading := loading s;
                        error := v; quizData := quizData s |}).
Definition setQuizData (v : option QuizRecord) : Async State :=
  setState (fun s => {| url := url s; loading := loading s;
                        error := error s; quizData := v |}).

Definition validation_message : string := "Please enter a Wikipedia URL.".
Definition fallback_message : string :=
  "An unknown error occurred. Is the backend server running?".

(** [err.response?.data?.detail] *)
Definition detail_of (err : AxiosError) : JsValue :=
  opt_chain (opt_chain (response err) "data") "detail".

(** [handleSubmit], closed over the [url] of the render it was created in
    ([e.preventDefault()] touches no state). *)
Definition handleSubmit (url : string) : Async State :=
  if negb (truthy (JStr url)) then
    setError (JStr validation_message)
  else
    (setLoading true ;;
     setError JNull ;;
     setQuizData None ;;
     await (Api.generateQuiz url) (fun settled =>
       match settled with
       | Fulfilled response => setQuizData (Some (data response))
       | Rejected err => setError (js_or (detail_of err) (JStr fallback_message))
       end) ;;
     setLoading false)%async.

(** What the component returns: the form, then the three conditional
    blocks [{error && ...}], [{loading && ...}], [{quizData && ...}].
    [error_box] is the value placed after "Error:"; the slot only ever holds
    [null] or a truthy value, and [null] renders nothing. *)
Record View := {
  input_type : string;
  input_required : bool;
  input_value : string;
  input_onChange : string -> Async State;
  onSubmit : Async State;
  button_disabled : bool;
  button_label : string;
  error_box : option JsValue;
  loading_box : option string;
  quiz_box : option QuizDisplay.View
}.

Definition render (s : State) : View :=
  {| input_type := "url";
     input_required := true;
     input_value := url s;
     input_onChange := fun value => setUrl value;
     onSubmit := handleSubmit (url s);
     button_disabled := loading s;
     button_label := if loading s then "Generating..." else "Generate Quiz";
     error_box := if truthy (error s) then Some (error s) else None;
     loading_box :=
       if loading s then Some "Generating quiz... This may take a moment."
       else None;
     quiz_box :=
       match quizData s with
       | Some _ => QuizDisplay.QuizDisplay (quizData s)
       | None => None
       end |}.

(** Submitting the form in state [s]: the handler of the current render. *)
Definition submit (s : State) : Async State := onSubmit (render s).

(** The user leaves [text] in the url field in state [s]: the change
    handler of the current render runs with the value the element reports
    ([e.target.value]). *)
Definition edit (text : string) (s : State) : Async State :=
  input_onChange (render s) (UrlInput.sanitize text).

(** What is on screen once React has rendered the view. *)
Record Screen := {
  shown_input : string;
  shown_button_disabled : bool;
  shown_button_label : string;
  shown_error : option (list ReactDom.TextNode);
  shown_loading : option string;
  shown_quiz : option QuizDisplay.View
}.

(** Rendering the view: the error block holds "Error:" followed by the
    child [{error}], so the render throws ([None]) when React cannot render
    that value. *)
Definition paint (v : View) : option Screen :=
  match error_box v with
  | None =>
      Some {| shown_input := input_value v;
              shown_button_disabled := button_disabled v;
              shown_button_label := button_label v;
              shown_error := None;
              shown_loading := loading_box v;
              shown_quiz := quiz_box v |}
  | Some e =>
      match ReactDom.paint_child e with
      | Some nodes =>
          Some {| shown_input := input_value v;
                  shown_button_disabled := button_disabled v;
                  shown_button_label := button_label v;
                  shown_error := Some nodes;
                  shown_loading := loading_box v;
                  shown_quiz := quiz_box v |}
      | None => None
      end
  end.

End GenerateQuizTab.

(** ** tabs/HistoryTab.jsx *)

Module HistoryTab.

(** The six [useState] slots. *)
Record State := {
  history : list HistoryEntry.t;
  loading : bool;
  error : JsValue;
  isModalOpen : bool;
  selectedQuiz : option QuizRecord;
  modalLoading : bool
}.

Definition initial : State :=
  {| history := []; loading := true; error := JNull;
     isModalOpen := false; selectedQuiz := None; modalLoading := false |}.

Definition setHistory (v : list HistoryEntry.t) : Async State :=
  setState (fun s => {| history := v; loading := loading s; error := error s;
                        isModalOpen := isModalOpen s;
                        selectedQuiz := selectedQuiz s;
                        modalLoading := modalLoading s |}).
Definition setLoading (v : bool) : Async State :=
  setState (fun s => {| history := history s; loading := v; error := error s;
                        isModalOpen := isModalOpen s;
                        selectedQuiz := selectedQuiz s;
                        modalLoading := modalLoading s |}).
Definition setError (v : JsValue) : Async State :=
  setState (fun s => {| history := history s; loading := loading s; error := v;
                        isModalOpen := isModalOpen s;
                        selectedQuiz := selectedQuiz s;
                        modalLoading := modalLoading s |}).
Definition setIsModalOpen (v : bool) : Async State :=
  setState (fun s => {| history := history s; loading := loading s;
                        error := error s; isModalOpen := v;
                        selectedQuiz := selectedQuiz s;
                        modalLoading := modalLoading s |}).
Definition setSelectedQuiz (v : option QuizRecord) : Async State :=
  setState (fun s => {| history := history s; loading := loading s;
                        error := error s; isModalOpen := isModalOpen s;
                        selectedQuiz := v;
                        modalLoading := modalLoading s |}).
Definition setModalLoading (v : bool) : Async State :=
  setState (fun s => {| history := history s; loading := loading s;
                        error := error s; isModalOpen := isModalOpen s;
                        selectedQuiz := selectedQuiz s;
                        modalLoading := v |}).

Definition history_failure : string := "Failed to fetch history.".
Definition details_failure : string := "Failed to fetch quiz details.".

(** [fetchHistory], called once by the mount effect. *)
Definition fetchHistory : Async State :=
  (setLoading true ;;
   setError JNull ;;
   await Api.getHistory (fun settled =>
     match settled with
     | Fulfilled response => setHistory (data response)
     | Rejected err => setError (JStr history_failure)
     end) ;;
   setLoading false)%async.

Definition handleDetailsClick (quizId : identifier) : Async State :=
  (setModalLoading true ;;
   setIsModalOpen true ;;
   setSelectedQuiz None ;;
   await (Api.getQuizById quizId) (fun settled =>
     match settled with
     | Fulfilled response => setSelectedQuiz (Some (data response))
     | Rejected err => (setError (JStr details_failure) ;; setIsModalOpen false)
     end) ;;
   setModalLoading false)%async.

Definition closeModal : Async State :=
  (setIsModalOpen false ;; setSelectedQuiz None)%async.

(** [new Date(d).toLocaleString()]: the text depends on the browser's
    locale, so the cell keeps the expression. *)
Inductive LocaleText := toLocaleString (date : string).

(** A [<tr>] of the table body. *)
Inductive TableRow :=
  | PlaceholderRow (text : string)
  | EntryRow (key : identifier) (title url : string) (date : LocaleText)
             (onClick : Async State).

(** [<Modal isOpen onClose>] with its two conditional children. *)
Record ModalElement := {
  isOpen : bool;
  onClose : Async State;
  modal_loading_text : option string;
  modal_quiz : option QuizDisplay.View
}.

Inductive View :=
  | LoadingText (text : string)
  | ErrorText (e : JsValue)
  | Table (tbody : list TableRow) (modal : ModalElement).

Definition render_row (item : HistoryEntry.t) : TableRow :=
  EntryRow (HistoryEntry.id item) (HistoryEntry.title item)
           (HistoryEntry.url item)
           (toLocaleString (HistoryEntry.date_generated item))
           (handleDetailsClick (HistoryEntry.id item)).

Definition render_tbody (history : list HistoryEntry.t) : list TableRow :=
  if (length history =? 0)%nat then [ PlaceholderRow "No quizzes generated yet." ]
  else map render_row history.

Definition render_modal (s : State) : ModalElement :=
  {| isOpen := isModalOpen s;
     onClose := closeModal;
     modal_loading_text :=
       if modalLoading s then Some "Loading quiz details..." else None;
     modal_quiz :=
       match selectedQuiz s with
       | Some _ => QuizDisplay.QuizDisplay (selectedQuiz s)
       | None => None
       end |}.

Definition render (s : State) : View :=
  if loading s then LoadingText "Loading history..."
  else if truthy (error s) then ErrorText (error s)
  else Table (render_tbody (history s)) (render_modal s).

(** *** The tab as a running component *)

(** After mounting: the effect has called [fetchHistory]. *)
Definition mounted : Component State :=
  dispatch fetchHistory {| state := initial; pending := []; sent := [] |}.

(** What can happen next: the user clicks the Details button of a rendered
    row, the modal calls [onClose], or a request in flight settles. *)
Inductive step : Component State -> Component State -> Prop :=
  | step_details c tbody modal key title url date onClick :
      render (state c) = Table tbody modal ->
      EntryRow key title url date onClick ∈ tbody ->
      step c (dispatch onClick c)
  | step_close c tbody modal :
      render (state c) = Table tbody modal ->
      step c (dispatch (onClose modal) c)
  | step_settle c before f after o :
      pending c = before ++ f :: after ->
      step c (settle before f after o c).

Definition reachable (c : Component State) : Prop := rtc step mounted c.

End HistoryTab.

(** ** App.jsx *)

Module App.

(** The one [useState] slot. *)
Record State := { activeTab : string }.

Definition initial : State := {| activeTab := "generate" |}.

Definition setActiveTab (v : string) : Async State :=
  setState (fun _ => {| activeTab := v |}).

(** The two class lists a tab button chooses between. *)
Definition active_class : string := "text-blue-600 border-b-2 border-blue-600".
Definition inactive_class : string := "text-gray-500 hover:text-gray-700".

Record TabButtonView := {
  tab_onClick : Async State;
  tab_className : string;
  tab_title : string
}.

Definition TabButton (s : State) (tabName title : string) : TabButtonView :=
  {| tab_onClick := setActiveTab tabName;
     tab_className :=
       if String.eqb (activeTab s) tabName then active_class else inactive_class;
     tab_title := title |}.

(** The tab components [<main>] can hold. *)
Inductive TabElement := GenerateQuizTabElement | HistoryTabElement.

(** The navigation buttons, and the two conditional children of [<main>]:
    [generate_child] is [{activeTab === 'generate' && <GenerateQuizTab />}],
    [history_child] is [{activeTab === 'history' && <HistoryTab />}]. *)
Record View := {
  nav : list TabButtonView;
  generate_child : option TabElement;
  history_child : option TabElement
}.

Definition render (s : State) : View :=
  {| nav := [ TabButton s "generate" "Generate Quiz";
              TabButton s "history" "Past Quizzes (History)" ];
     generate_child :=
       if String.eqb (activeTab s) "generate" then Some GenerateQuizTabElement
       else None;
     history_child :=
       if String.eqb (activeTab s) "history" then Some HistoryTabElement
       else None |}.

(** The tab components on screen. *)
Definition main (v : View) : list TabElement :=
  option_list (generate_child v) ++ option_list (history_child v).

(** The buttons carrying the active classes. *)
Definition highlighted (v : View) : list TabButtonView :=
  filter (fun b => tab_className b = active_class) (nav v).

(** What the user can do to the shell: click one of the rendered buttons. *)
Inductive step : State -> State -> Prop :=
  | step_tab s b :
      b ∈ nav (render s) ->
      step s (fst (run_sync (tab_onClick b) s)).

Definition reachable (s : State) : Prop := rtc step initial s.

(** *** The page: the shell with the tab components it has mounted

    React keeps a child component's state for as long as the same element
    is rendered in the same place, drops it when the element disappears and
    starts a fresh instance (initial [useState] values, mount effects run)
    when it appears. *)
Record Page := {
  shell : State;
  generate_tab : option (Component GenerateQuizTab.State);
  history_tab : option (Component HistoryTab.State)
}.

Definition fresh_generate_tab : Component GenerateQuizTab.State :=
  {| state := GenerateQuizTab.initial; pending := []; sent := [] |}.

(** Keep, drop or mount the child in one place of the tree. *)
Definition reconcile {C} (element : option TabElement) (old : option C)
    (fresh : C) : option C :=
  match element with
  | None => None
  | Some _ => match old with Some c => Some c | None => Some fresh end
  end.

(** The page after the shell's state became [s]. *)
Definition rerender (s : State) (p : Page) : Page :=
  {| shell := s;
     generate_tab :=
       reconcile (generate_child (render s)) (generate_tab p) fresh_generate_tab;
     history_tab :=
       reconcile (history_child (render s)) (history_tab p) HistoryTab.mounted |}.

(** The page as first loaded. *)
Definition first_render : Page :=
  rerender initial {| shell := initial; generate_tab := None; history_tab := None |}.

(** Clicking the tab button [b]. *)
Definition click_tab (b : TabButtonView) (p : Page) : Page :=
  rerender (fst (run_sync (tab_onClick b) (shell p))) p.

End App.

(** * Sample data, and the notions the specification words *)

Module Samples.

Definition turing_question : QuizQuestion :=
  {| question := "Where did Alan Turing study?";
     options := ["Oxford"; "Cambridge"; "Harvard"; "Yale"];
     answer := "Cambridge";
     difficulty := "easy";
     explanation := "He studied at King's College, Cambridge." |}.

(** A question whose answer is none of its options. *)
Definition stray_question : QuizQuestion :=
  {| question := "When was he born?";
     options := ["1910"; "1911"];
     answer := "1912";
     difficulty := "hard";
     explanation := "He was born on 23 June 1912." |}.

Definition turing_record : QuizRecord :=
  {| title := "Alan Turing";
     summary := "English mathematician and computer scientist.";
     key_entities := {| people := ["Alan Turing"];
                        organizations := ["Bletchley Park"];
                        locations := ["London"] |};
     quiz := [turing_question; stray_question];
     related_topics := ["Enigma"; "Turing machine"] |}.

Definition turing_view : QuizDisplay.View :=
  Eval vm_compute in
    default {| QuizDisplay.heading := ""; QuizDisplay.summary_text := "";
               QuizDisplay.entity_lists := []; QuizDisplay.question_views := [];
               QuizDisplay.topic_tags := [] |}
            (QuizDisplay.QuizDisplay (Some turing_record)).

(** The backend cannot be reached: every call is rejected without a
    response. *)
Definition offline : Network :=
  fun P _ => Rejected {| response := JUndefined |}.

End Samples.

Module GenerateQuizTabSpec.
Import GenerateQuizTab.



(** The "detail" field of a failure response's body, when the response, its
    body and the field are there, as the specification words it. *)
Definition detail_field (err : AxiosError) : option JsValue :=
  match response err with
  | JObj resp =>
      match resp !! "data" with
      | Some (JObj body) => body !! "detail"
      | _ => None
      end
  | _ => None
  end.

(** The failure of the specification's scenario: HTTP 500 with body
    [{"detail": "scrape failed"}]. *)
Definition scrape_failed : AxiosError :=
  {| response := JObj {[ "status" := JNum 500;
                         "data" := JObj {[ "detail" := JStr "scrape failed" ]} ]} |}.

(** A failure whose body carries an empty "detail". *)
Definition empty_detail : AxiosError :=
  {| response := JObj {[ "status" := JNum 500;
                         "data" := JObj {[ "detail" := JStr "" ]} ]} |}.

Definition failing (err : AxiosError) : Network := fun P _ => Rejected err.

Definition typed (u : string) : State :=
  {| url := u; loading := false; error := JNull; quizData := None |}.

(** A quiz is on display and the input has been cleared. *)
Definition showing_quiz : State :=
  {| url := ""; loading := false; error := JNull;
     quizData := Some Samples.turing_record |}.

End GenerateQuizTabSpec.

Module HistoryTabSpec.
Import HistoryTab.

(** The call [fetchHistory] leaves in flight, with the rest of its body. *)
Definition history_inflight : InFlight State :=
  {| in_P := AHistory;
     in_call := Api.getHistory;
     in_k := fun settled =>
       (match settled with
        | Fulfilled response => setHistory (data response)
        | Rejected err => setError (JStr history_failure)
        end ;;
        setLoading false)%async |}.

(** The call [handleDetailsClick quizId] leaves in flight, with the rest of
    its body. *)
Definition details_inflight (quizId : identifier) : InFlight State :=
  {| in_P := AQuizRecord;
     in_call := Api.getQuizById quizId;
     in_k := fun settled =>
       (match settled with
        | Fulfilled response => setSelectedQuiz (Some (data response))
        | Rejected err =>
            (setError (JStr details_failure) ;; setIsModalOpen false)
        end ;;
        setModalLoading false)%async |}.

(** What holds of the tab at every moment after mounting. *)
Record invariant (c : Component State) : Prop := {
  error_null_or_truthy :
    error (state c) = JNull \/ truthy (error (state c)) = true;
  loading_means_first_fetch :
    loading (state c) = true ->
    error (state c) = JNull /\ Forall (fun f => f = history_inflight) (pending c);
  pending_known :
    Forall (fun f => f = history_inflight \/
                     exists quizId, f = details_inflight quizId) (pending c)
}.

Definition entry (n : N) (t : string) : HistoryEntry.t :=
  {| HistoryEntry.id := IdNum n;
     HistoryEntry.title := t;
     HistoryEntry.url := "https://en.wikipedia.org/wiki/" +:+ t;
     HistoryEntry.date_generated := "2025-01-01T00:00:00" |}.

Definition two_entries : list HistoryEntry.t :=
  [ entry 7 "Alan_Turing"; entry 3 "Ada_Lovelace" ].

(** A backend that answers every call: the history with [h], a quiz request
    with [q]. *)
Definition answering (h : list HistoryEntry.t) (q : QuizRecord) : Network :=
  fun P _ =>
    match P with
    | AQuizRecord => Fulfilled {| data := q |}
    | AHistory => Fulfilled {| data := h |}
    end.

(** The tab after mounting with the backend unreachable. *)
Definition failed_mount : Component State :=
  settle [] history_inflight [] (Rejected {| response := JUndefined |}) mounted.

(** The tab after mounting, receiving [two_entries] and a click on the
    Details button of the first row. *)
Definition details_requested : Component State :=
  dispatch (handleDetailsClick (IdNum 7))
    (settle [] history_inflight [] (Fulfilled {| data := two_entries |}) mounted).

(** The tab after mounting, receiving [two_entries], a click on the Details
    button of the first row, the modal closed while the request is in
    flight, and the request then fulfilled. *)
Definition closed_in_flight : Component State :=
  settle [] (details_inflight (IdNum 7)) []
    (Fulfilled {| data := Samples.turing_record |})
    (dispatch closeModal details_requested).

(** The tab once the history [h] has arrived. *)
Definition loaded (h : list HistoryEntry.t) : State :=
  {| history := h; loading := false; error := JNull;
     isModalOpen := false; selectedQuiz := None; modalLoading := false |}.

End HistoryTabSpec.

Module HistoryTabLifecycle.
Import HistoryTab HistoryTabSpec.

(** The quiz fetches for the ids [ids], in order. *)
Definition detail_requests (ids : list identifier) : list Request :=
  map (fun quizId => request (Api.getQuizById quizId)) ids.

(** The first stage of the tab's life: the history request is in flight. *)
Definition fetching (c : Component State) : Prop :=
  state c = initial /\
  pending c = [ history_inflight ] /\
  sent c = [ request Api.getHistory ].

(** The second stage: the history request has settled. *)
Definition settled (c : Component State) : Prop :=
  loading (state c) = false /\
  Forall (fun f => exists quizId, f = details_inflight quizId) (pending c) /\
  (exists ids,
     sent c = request Api.getHistory :: detail_requests ids /\
     Forall (fun quizId => quizId ∈ map HistoryEntry.id (history (state c))) ids) /\
  (error (state c) = JNull \/
   error (state c) = JStr history_failure /\ pending c = [] \/
   error (state c) = JStr details_failure).

Definition lifecycle (c : Component State) : Prop := fetching c \/ settled c.

(** A click on Details for [A], the modal closed, a click on Details for
    [B], then the fetch for [B] fulfilled with [rB] and only after it the
    fetch for [A] fulfilled with [rA]. *)
Definition overtaken (A B : identifier) (rA rB : AxiosResponse QuizRecord)
    (c : Component State) : Component State :=
  let c1 := dispatch (handleDetailsClick A) c in
  let c2 := dispatch closeModal c1 in
  let c3 := dispatch (handleDetailsClick B) c2 in
  let c4 := settle (pending c ++ [ details_inflight A ]) (details_inflight B) []
              (Fulfilled rB) c3 in
  settle (pending c) (details_inflight A) [] (Fulfilled rA) c4.

(** The modal is closed while the detail request is in flight. *)
Definition closing : State -> State := fun s => fst (run_sync closeModal s).

End HistoryTabLifecycle.

Module AppSpec.
Import App.

(** Clicking the "Generate Quiz" button of the page. *)
Definition open_generate (p : Page) : Page :=
  click_tab (TabButton (shell p) "generate" "Generate Quiz") p.

(** Clicking the "Past Quizzes (History)" button of the page. *)
Definition open_history (p : Page) : Page :=
  click_tab (TabButton (shell p) "history" "Past Quizzes (History)") p.

End AppSpec.

(** * Properties *)

(** ** Quiz Display *)

Module QuizDisplayFacts.
Import QuizDisplay Samples.

Lemma marked_render_option q i o :
  marked (render_option q i o) = String.eqb o (answer q).
Proof.
  unfold marked, render_option; simpl.
  destruct (String.eqb o (answer q)); reflexivity.
Qed.

Lemma lookup_option_views index q j :
  option_views (render_question index q) !! j
  = render_option q j <$> options q !! j.
Proof. apply list_lookup_imap. Qed.

Lemma option_texts index q :
  map option_text (option_views (render_question index q)) = options q.
Proof.
  apply list_eq; intros j.
  rewrite list_lookup_fmap, lookup_option_views.
  destruct (options q !! j); reflexivity.
Qed.

(** An option paragraph is marked exactly when its text is the answer. *)
Lemma marked_iff index q j o :
  option_views (render_question index q) !! j = Some o ->
  marked o = true <-> options q !! j = Some (answer q).
Proof.
  rewrite lookup_option_views. intros H.
  destruct (options q !! j) as [x|] eqn:Hx; simplify_eq/=.
  rewrite marked_render_option, String.eqb_eq.
  split; [intros ->; reflexivity | congruence].
Qed.

Lemma question_view_lookup r v index q :
  QuizDisplay (Some r) = Some v ->
  quiz r !! index = Some q ->
  question_views v !! index = Some (render_question index q).
Proof.
  intros [= <-] Hq; simpl.
  rewrite list_lookup_imap, Hq. reflexivity.
Qed.

(** C2: for a question of a record whose options are pairwise distinct and
    contain the answer, the rendered question block shows the options in
    order and marks exactly one of them, the one equal to the answer; for a
    question none of whose options equals the answer, no option is
    marked. *)
Theorem answer_marked_exactly_once (r : QuizRecord) (v : View)
    (index : nat) (q : QuizQuestion) :
  QuizDisplay (Some r) = Some v ->
  quiz r !! index = Some q ->
  exists qv : QuestionView,
    question_views v !! index = Some qv /\
    map option_text (option_views qv) = options q /\
    (NoDup (options q) -> answer q ∈ options q ->
       exists i : nat,
         options q !! i = Some (answer q) /\
         (forall j o, option_views qv !! j = Some o ->
                      (marked o = true <-> j = i)) /\
         map option_text (marked_options qv) = [answer q]) /\
    (answer q ∉ options q -> marked_options qv = []).
Proof.
  intros Hv Hq. exists (render_question index q).
  split; [eauto using question_view_lookup|].
  split; [apply option_texts|].
  split.
  - intros Hnd Hin.
    apply list_elem_of_lookup in Hin as [i Hi].
    exists i. split; [exact Hi|].
    assert (Hone : forall j o,
      option_views (render_question index q) !! j = Some o ->
      marked o = true <-> j = i).
    { intros j o Ho. rewrite (marked_iff _ _ _ _ Ho).
      split; [intros Hj; eapply NoDup_lookup; eauto | intros ->; exact Hi]. }
    split; [exact Hone|].
    unfold marked_options.
    rewrite <- (option_texts index q) in Hnd, Hi.
    rewrite list_lookup_fmap in Hi.
    destruct (option_views (render_question index q) !! i) as [oi|] eqn:Hoi;
      [|discriminate].
    injection Hi as Hi.
    apply NoDup_fmap_1 in Hnd.
    assert (Hperm : filter (fun o => marked o = true)
                      (option_views (render_question index q)) ≡ₚ [oi]).
    { apply NoDup_Permutation.
      - apply NoDup_filter, Hnd.
      - apply NoDup_singleton.
      - intros o. rewrite list_elem_of_filter, list_elem_of_singleton.
        split.
        + intros [Hm Ho]. apply list_elem_of_lookup in Ho as [j Hj].
          apply (Hone _ _ Hj) in Hm as ->. congruence.
        + intros ->. split; [eapply Hone; eauto|].
          eapply list_elem_of_lookup_2; eauto. }
    apply Permutation_singleton_r in Hperm. rewrite Hperm. simpl. congruence.
  - intros Hnot. unfold marked_options.
    destruct (filter _ _) as [|o rest] eqn:Hf; [reflexivity|].
    assert (Ho : o ∈ filter (fun o => marked o = true)
                   (option_views (render_question index q)))
      by (rewrite Hf; left).
    apply list_elem_of_filter in Ho as [Hm Ho].
    apply list_elem_of_lookup in Ho as [j Hj].
    apply (marked_iff _ _ _ _ Hj) in Hm.
    exfalso. apply Hnot. eapply list_elem_of_lookup_2; eauto.
Qed.

Lemma answer_marked_exactly_once_witness :
  exists qv0 qv1 : QuestionView,
    question_views turing_view !! 0 = Some qv0 /\
    map option_text (marked_options qv0) = ["Cambridge"] /\
    question_views turing_view !! 1 = Some qv1 /\
    marked_options qv1 = [].
Proof.
  destruct (answer_marked_exactly_once turing_record turing_view 0
              turing_question eq_refl eq_refl)
    as (qv0 & Hq0 & _ & Hone & _).
  destruct (answer_marked_exactly_once turing_record turing_view 1
              stray_question eq_refl eq_refl)
    as (qv1 & Hq1 & _ & _ & Hnone).
  exists qv0, qv1.
  split; [exact Hq0|].
  split.
  - destruct Hone as (i & _ & _ & Hm); [| |exact Hm].
    + compute_done.
    + compute_done.
  - split; [exact Hq1|].
    apply Hnone. compute_done.
Defined.

End QuizDisplayFacts.

(** ** Generate Tab *)

Module GenerateQuizTabFacts.
Import GenerateQuizTab GenerateQuizTabSpec.

Lemma truthy_url (u : string) : truthy (JStr u) = true <-> u <> "".
Proof.
  simpl. destruct (String.eqb_spec u ""); simpl; split; congruence.
Qed.

Lemma handleSubmit_nonempty (u : string) :
  u <> "" ->
  handleSubmit u =
    (setLoading true ;; setError JNull ;; setQuizData None ;;
     await (Api.generateQuiz u) (fun settled =>
       match settled with
       | Fulfilled response => setQuizData (Some (data response))
       | Rejected err => setError (js_or (detail_of err) (JStr fallback_message))
       end) ;;
     setLoading false)%async.
Proof.
  intros Hu. apply truthy_url in Hu. unfold handleSubmit. rewrite Hu.
  reflexivity.
Qed.

(** [a || 'literal'] with a non-empty literal is never falsy. *)
Lemma js_or_truthy a (lit : string) :
  lit <> "" -> truthy (js_or a (JStr lit)) = true.
Proof.
  intros Hl. unfold js_or. destruct (truthy a) eqn:Ha; [exact Ha|].
  apply truthy_url, Hl.
Qed.

Lemma detail_of_field err :
  detail_of err = default JUndefined (detail_field err).
Proof.
  unfold detail_of, detail_field, opt_chain.
  destruct (response err) as [| | | | | |resp]; try reflexivity.
  destruct (resp !! "data") as [[| | | | | |body]|]; reflexivity.
Qed.





(** After the user's edit the url slot holds the value the field reports. *)
Lemma edit_sets_url (text : string) (s : State) :
  run_sync (edit text s) s
  = ({| url := UrlInput.sanitize text; loading := loading s;
        error := error s; quizData := quizData s |}, Finished).
Proof. reflexivity. Qed.



(** C3: submitting with a non-empty url sends exactly one request, a POST to
    /generate_quiz on the client's base URL, whose JSON body is the object
    with the single field "url" holding the submitted url; this is so
    however the request settles and whatever happens in the meantime. *)
Theorem nonempty_url_posts_once (s : State) (net : Network)
    (meanwhile : State -> State) :
  url s <> "" ->
  exists fields : gmap string JsValue,
    snd (exec net meanwhile (submit s) s)
      = [ {| method := POST;
             baseURL := "http://localhost:8000";
             path := "/generate_quiz";
             headers := {[ "Content-Type" := "application/json" ]};
             body := Some (JObj fields) |} ] /\
    fields !! "url" = Some (JStr (url s)) /\
    dom fields = {[ "url" ]}.
Proof.
  intros Hu. exists {[ "url" := JStr (url s) ]}.
  split; [|split; [apply lookup_singleton_eq | apply dom_singleton_L]].
  unfold submit; simpl. rewrite (handleSubmit_nonempty _ Hu). simpl.
  destruct (net AQuizRecord (Api.generateQuiz (url s))); reflexivity.
Qed.

Lemma nonempty_url_posts_once_witness :
  exists fields : gmap string JsValue,
    snd (exec Samples.offline uninterrupted
           (submit (typed "https://en.wikipedia.org/wiki/Alan_Turing"))
           (typed "https://en.wikipedia.org/wiki/Alan_Turing"))
      = [ {| method := POST;
             baseURL := "http://localhost:8000";
             path := "/generate_quiz";
             headers := {[ "Content-Type" := "application/json" ]};
             body := Some (JObj fields) |} ] /\
    fields !! "url" = Some (JStr "https://en.wikipedia.org/wiki/Alan_Turing") /\
    dom fields = {[ "url" ]}.
Proof.
  apply (nonempty_url_posts_once
           (typed "https://en.wikipedia.org/wiki/Alan_Turing")
           Samples.offline uninterrupted).
  simpl. discriminate.
Defined.

Lemma exec_rejected (s : State) (net : Network) (meanwhile : State -> State)
    (err : AxiosError) :
  url s <> "" ->
  net _ (Api.generateQuiz (url s)) = Rejected err ->
  fst (exec net meanwhile (submit s) s)
  = let m := meanwhile {| url := url s; loading := true; error := JNull;
                          quizData := None |} in
    {| url := url m; loading := false;
       error := js_or (detail_of err) (JStr fallback_message);
       quizData := quizData m |}.
Proof.
  intros Hu Hnet. unfold submit; simpl.
  rewrite (handleSubmit_nonempty _ Hu). simpl. rewrite Hnet. reflexivity.
Qed.

(** C7 (as amended): when the generate request fails, the error message on
    display is the value of the response body's "detail" field if that field
    holds a non-empty string, and the fixed fallback message if the
    response, its body or the field is absent or the field's value is falsy
    (the empty string, null, false, 0); the loading indicator is cleared.
    For any other truthy value the error block holds what React makes of
    that value. *)
Theorem failure_displays_detail_or_fallback (s : State) (net : Network)
    (meanwhile : State -> State) (err : AxiosError) :
  url s <> "" ->
  net _ (Api.generateQuiz (url s)) = Rejected err ->
  let v := render (fst (exec net meanwhile (submit s) s)) in
  shown_error <$> paint v
    = match detail_field err with
      | Some (JStr message) =>
          Some (Some [ ReactDom.StringNode
                         (if String.eqb message "" then
                            "An unknown error occurred. Is the backend server running?"
                          else message) ])
      | Some d =>
          if truthy d then Some <$> ReactDom.paint_child d
          else Some (Some [ ReactDom.StringNode
                 "An unknown error occurred. Is the backend server running?" ])
      | None =>
          Some (Some [ ReactDom.StringNode
                 "An unknown error occurred. Is the backend server running?" ])
      end /\
  loading_box v = None.
Proof.
  intros Hu Hnet. cbv zeta. rewrite (exec_rejected _ _ _ _ Hu Hnet).
  cbv zeta. split; [|reflexivity].
  unfold paint, render; cbn [error loading error_box].
  rewrite js_or_truthy by discriminate.
  rewrite detail_of_field. unfold js_or.
  destruct (detail_field err) as [d|]; [|reflexivity].
  cbv [default from_option id].
  destruct d as [| |b|n|message|items|fields]; cbn [truthy].
  - reflexivity.
  - reflexivity.
  - destruct b; reflexivity.
  - destruct (negb (n =? 0)%Z); reflexivity.
  - destruct (String.eqb message ""); reflexivity.
  - destruct (ReactDom.paint_child (JArr items)); reflexivity.
  - reflexivity.
Qed.

Lemma failure_displays_detail_or_fallback_witness :
  shown_error <$>
    paint (render (fst (exec (failing scrape_failed) uninterrupted
                          (submit (typed "https://en.wikipedia.org/wiki/X"))
                          (typed "https://en.wikipedia.org/wiki/X"))))
  = Some (Some [ ReactDom.StringNode "scrape failed" ]).
Proof.
  destruct (failure_displays_detail_or_fallback
              (typed "https://en.wikipedia.org/wiki/X")
              (failing scrape_failed) uninterrupted scrape_failed) as [H _].
  - simpl. discriminate.
  - reflexivity.
  - exact H.
Defined.

(** C7 (as stated) fails: the body's "detail" field is there and holds the
    empty string, yet the error on display is the fallback message and not
    the field's value. *)
Lemma empty_detail_shows_fallback :
  detail_field empty_detail = Some (JStr "") /\
  error_box (render (fst (exec (failing empty_detail) uninterrupted
                            (submit (typed "https://en.wikipedia.org/wiki/X"))
                            (typed "https://en.wikipedia.org/wiki/X"))))
    = Some (JStr "An unknown error occurred. Is the backend server running?") /\
  error_box (render (fst (exec (failing empty_detail) uninterrupted
                            (submit (typed "https://en.wikipedia.org/wiki/X"))
                            (typed "https://en.wikipedia.org/wiki/X"))))
    <> Some (JStr "").
Proof.
  split; [reflexivity|].
  assert (H : error_box (render (fst (exec (failing empty_detail) uninterrupted
                (submit (typed "https://en.wikipedia.org/wiki/X"))
                (typed "https://en.wikipedia.org/wiki/X"))))
    = Some (JStr "An unknown error occurred. Is the backend server running?"))
    by reflexivity.
  split; [exact H|]. rewrite H. discriminate.
Qed.

(** C8 (as amended): submitting with a non-empty url, from any state, puts
    the component in the loading state with the held record and the held
    error cleared; that is the state in which the request goes out. *)
Theorem resubmit_resets_to_loading (s : State) :
  url s <> "" ->
  let s' := fst (run_sync (submit s) s) in
  loading s' = true /\ quizData s' = None /\ error s' = JNull /\
  issued (snd (run_sync (submit s) s)) = Some (request (Api.generateQuiz (url s))).
Proof.
  intros Hu. unfold submit; simpl. rewrite (handleSubmit_nonempty _ Hu).
  simpl. repeat split.
Qed.

Lemma resubmit_resets_to_loading_witness :
  let s := {| url := "https://en.wikipedia.org/wiki/X"; loading := false;
              error := JStr "scrape failed";
              quizData := Some Samples.turing_record |} in
  let s' := fst (run_sync (submit s) s) in
  loading s' = true /\ quizData s' = None /\ error s' = JNull /\
  issued (snd (run_sync (submit s) s)) = Some (request (Api.generateQuiz (url s))).
Proof.
  intros s.
  apply (resubmit_resets_to_loading s).
  simpl. discriminate.
Defined.

(** C8 (as stated) fails: submitting while a quiz is on display and the url
    input is empty leaves loading false and keeps the held record. *)
Lemma resubmit_with_empty_url_keeps_result :
  let s' := fst (run_sync (submit showing_quiz) showing_quiz) in
  loading s' = false /\ quizData s' = Some Samples.turing_record /\
  error s' <> JNull.
Proof.
  cbv zeta. split; [reflexivity|]. split; [reflexivity|].
  simpl. discriminate.
Qed.

(** C9: submitting with an empty url finishes at once and changes the error
    slot only: the url, the loading flag and the held record are as before,
    so the view shows the validation message next to whatever quiz was on
    display. *)
Theorem empty_url_only_sets_error (s : State) :
  url s = "" ->
  run_sync (submit s) s
    = ({| url := url s; loading := loading s;
          error := JStr "Please enter a Wikipedia URL.";
          quizData := quizData s |}, Finished) /\
  let v := render (fst (run_sync (submit s) s)) in
  quiz_box v = QuizDisplay.QuizDisplay (quizData s) /\
  loading_box v = loading_box (render s) /\
  error_box v = Some (JStr "Please enter a Wikipedia URL.").
Proof.
  destruct s as [u l e q]; simpl. intros ->.
  split; [reflexivity|]. split; [|split; reflexivity].
  simpl. destruct q; reflexivity.
Qed.

Lemma empty_url_only_sets_error_witness :
  let v := render (fst (run_sync (submit showing_quiz) showing_quiz)) in
  quiz_box v = Some Samples.turing_view /\
  error_box v = Some (JStr "Please enter a Wikipedia URL.").
Proof.
  destruct (empty_url_only_sets_error showing_quiz eq_refl) as (_ & Hq & _ & He).
  cbv zeta. split; [rewrite Hq; reflexivity | exact He].
Defined.

End GenerateQuizTabFacts.

(** ** History Tab *)

Module HistoryTabFacts.
Import HistoryTab HistoryTabSpec.

Lemma render_table_inv s tbody modal :
  render s = Table tbody modal ->
  loading s = false /\ truthy (error s) = false /\
  tbody = render_tbody (history s) /\ modal = render_modal s.
Proof.
  unfold render. destruct (loading s); [discriminate|].
  destruct (truthy (error s)); [discriminate|].
  intros [= <- <-]. auto.
Qed.

Lemma render_tbody_lookup (h : list HistoryEntry.t) (i : nat) :
  h <> [] -> render_tbody h !! i = render_row <$> h !! i.
Proof.
  intros Hh. unfold render_tbody.
  destruct h as [|e h]; [congruence|]. simpl length. simpl Nat.eqb.
  apply list_lookup_fmap.
Qed.

Lemma render_tbody_entry_row h key title url date onClick :
  EntryRow key title url date onClick ∈ render_tbody h ->
  exists item, item ∈ h /\ EntryRow key title url date onClick = render_row item.
Proof.
  unfold render_tbody. destruct h as [|e h]; simpl.
  - intros H. apply list_elem_of_singleton in H. discriminate.
  - intros H. change (EntryRow key title url date onClick
                      ∈ render_row <$> (e :: h)) in H.
    apply list_elem_of_fmap in H as (item & Heq & Hin). eauto.
Qed.

(** C6: once the history request made on mounting is answered with a
    sequence of entries, the tab shows the table; its body is the single
    placeholder row when the sequence is empty, and otherwise has exactly one
    row per entry, the i-th row showing the i-th entry (same order, nothing
    sorted, nothing dropped, nothing added). *)
Theorem rows_follow_backend_order (net : Network)
    (entries : list HistoryEntry.t) :
  net AHistory Api.getHistory = Fulfilled {| data := entries |} ->
  exists tbody modal,
    render (fst (exec net uninterrupted fetchHistory initial))
      = Table tbody modal /\
    match entries with
    | [] => tbody = [ PlaceholderRow "No quizzes generated yet." ]
    | _ :: _ =>
        length tbody = length entries /\
        forall i : nat,
          tbody !! i =
            (fun item =>
               EntryRow (HistoryEntry.id item) (HistoryEntry.title item)
                 (HistoryEntry.url item)
                 (toLocaleString (HistoryEntry.date_generated item))
                 (handleDetailsClick (HistoryEntry.id item)))
            <$> entries !! i
    end.
Proof.
  intros Hnet. simpl. rewrite Hnet. simpl.
  eexists _, _. split; [reflexivity|].
  destruct entries as [|e rest]; [reflexivity|].
  split.
  - unfold render_tbody. simpl. rewrite length_map. reflexivity.
  - intros i. apply (render_tbody_lookup (e :: rest)). discriminate.
Qed.

Lemma rows_follow_backend_order_witness :
  exists tbody modal,
    render (fst (exec (answering two_entries Samples.turing_record)
                   uninterrupted fetchHistory initial))
      = Table tbody modal /\
    length tbody = 2 /\
    tbody !! 0 = Some (render_row (entry 7 "Alan_Turing")) /\
    tbody !! 1 = Some (render_row (entry 3 "Ada_Lovelace")).
Proof.
  destruct (rows_follow_backend_order
              (answering two_entries Samples.turing_record) two_entries
              eq_refl)
    as (tbody & modal & Hr & Hlen & Hrows).
  exists tbody, modal. split; [exact Hr|]. split; [exact Hlen|].
  split; [apply (Hrows 0) | apply (Hrows 1)].
Defined.

Lemma dispatch_details (c : Component State) (quizId : identifier) :
  dispatch (handleDetailsClick quizId) c
  = {| state := {| history := history (state c);
                   loading := loading (state c);
                   error := error (state c);
                   isModalOpen := true;
                   selectedQuiz := None;
                   modalLoading := true |};
       pending := pending c ++ [ details_inflight quizId ];
       sent := sent c ++ [ request (Api.getQuizById quizId) ] |}.
Proof. reflexivity. Qed.



(** C5 (as amended): however the detail fetch settles and whatever happened
    while it was in flight: if it fails, the modal flag is cleared and the
    failure message is put in the tab's error slot; if it succeeds, the
    fetched record is held as the selected quiz and, when the table and the
    open modal are still on screen at that moment (the modal was not closed
    and no other fetch failed in between), the modal shows the rendered
    record in place of the loading text. *)
Theorem details_fetch_settles (X : identifier) (s : State) (net : Network)
    (meanwhile : State -> State) :
  let opened := fst (run_sync (handleDetailsClick X) s) in
  let s' := fst (exec net meanwhile (handleDetailsClick X) s) in
  isModalOpen opened = true /\
  match net AQuizRecord (Api.getQuizById X) with
  | Rejected err =>
      isModalOpen s' = false /\
      error s' = JStr "Failed to fetch quiz details." /\
      modalLoading s' = false
  | Fulfilled r =>
      selectedQuiz s' = Some (data r) /\
      modalLoading s' = false /\
      forall tbody modal,
        render (meanwhile opened) = Table tbody modal ->
        isOpen modal = true ->
        render s'
          = Table tbody {| isOpen := true;
                           onClose := closeModal;
                           modal_loading_text := None;
                           modal_quiz := QuizDisplay.QuizDisplay (Some (data r)) |}
  end.
Proof.
  cbv zeta. split; [reflexivity|].
  simpl. destruct (net AQuizRecord (Api.getQuizById X)) as [r|err]; simpl.
  - split; [reflexivity|]. split; [reflexivity|].
    intros tbody modal Hr Hopen.
    apply render_table_inv in Hr as (Hl & He & -> & ->).
    unfold render; cbn [loading error history]. rewrite Hl, He.
    unfold render_modal in *; cbn in *. rewrite Hopen. reflexivity.
  - repeat split.
Qed.

Lemma details_fetch_settles_witness :
  render (fst (exec (answering two_entries Samples.turing_record)
                 uninterrupted (handleDetailsClick (IdNum 7))
                 (loaded two_entries)))
    = Table (render_tbody two_entries)
        {| isOpen := true;
           onClose := closeModal;
           modal_loading_text := None;
           modal_quiz := Some Samples.turing_view |}.
Proof.
  destruct (details_fetch_settles (IdNum 7) (loaded two_entries)
              (answering two_entries Samples.turing_record) uninterrupted)
    as (_ & H).
  cbn [answering] in H. destruct H as (_ & _ & H).
  apply (H (render_tbody two_entries) _ eq_refl eq_refl).
Defined.

(** *** The invariant of the running tab *)

Lemma invariant_mounted : invariant mounted.
Proof.
  split; simpl.
  - left; reflexivity.
  - intros _. split; [reflexivity|]. repeat constructor.
  - repeat constructor.
Qed.

Lemma settle_history before after o (c : Component State) :
  settle before history_inflight after o c
  = {| state :=
         match o with
         | Fulfilled response =>
             {| history := data response; loading := false;
                error := error (state c);
                isModalOpen := isModalOpen (state c);
                selectedQuiz := selectedQuiz (state c);
                modalLoading := modalLoading (state c) |}
         | Rejected _ =>
             {| history := history (state c); loading := false;
                error := JStr history_failure;
                isModalOpen := isModalOpen (state c);
                selectedQuiz := selectedQuiz (state c);
                modalLoading := modalLoading (state c) |}
         end;
       pending := before ++ after;
       sent := sent c |}.
Proof. destruct o; reflexivity. Qed.

Lemma settle_details quizId before after o (c : Component State) :
  settle before (details_inflight quizId) after o c
  = {| state :=
         match o with
         | Fulfilled response =>
             {| history := history (state c); loading := loading (state c);
                error := error (state c);
                isModalOpen := isModalOpen (state c);
                selectedQuiz := Some (data response);
                modalLoading := false |}
         | Rejected _ =>
             {| history := history (state c); loading := loading (state c);
                error := JStr details_failure;
                isModalOpen := false;
                selectedQuiz := selectedQuiz (state c);
                modalLoading := false |}
         end;
       pending := before ++ after;
       sent := sent c |}.
Proof. destruct o; reflexivity. Qed.

Lemma Forall_drop_middle {A} (P : A -> Prop) (l1 l2 : list A) (x : A) :
  Forall P (l1 ++ x :: l2) -> P x /\ Forall P (l1 ++ l2).
Proof.
  rewrite !Forall_app, Forall_cons. tauto.
Qed.

Lemma invariant_step c c' : invariant c -> step c c' -> invariant c'.
Proof.
  intros [Herr Hload Hpend] Hstep.
  destruct Hstep as [c tbody modal key title url date onClick Hr Hin
                    |c tbody modal Hr
                    |c before f after o Hp].
  - apply render_table_inv in Hr as (Hl & He & -> & ->).
    apply render_tbody_entry_row in Hin as (item & _ & [= _ _ _ _ ->]).
    rewrite dispatch_details. split; cbn [state pending].
    + exact Herr.
    + cbn [loading]. congruence.
    + apply Forall_app. split; [exact Hpend|].
      apply Forall_singleton. right. eauto.
  - apply render_table_inv in Hr as (Hl & He & -> & ->).
    split; simpl.
    + exact Herr.
    + congruence.
    + exact Hpend.
  - rewrite Hp in Hpend, Hload.
    apply Forall_drop_middle in Hpend as [Hf Hrest].
    destruct Hf as [->|[quizId ->]].
    + rewrite settle_history. split; cbn [state pending].
      * destruct o; cbn [error]; [exact Herr | right; reflexivity].
      * destruct o; cbn [loading]; discriminate.
      * exact Hrest.
    + rewrite settle_details.
      assert (Hl : loading (state c) = false).
      { destruct (loading (state c)) eqn:Hl; [|reflexivity].
        destruct (Hload eq_refl) as [_ Hall].
        apply Forall_drop_middle in Hall as [Hbad _]. discriminate Hbad. }
      split; cbn [state pending].
      * destruct o; cbn [error]; [exact Herr | right; reflexivity].
      * destruct o; cbn [loading]; congruence.
      * exact Hrest.
Qed.

Lemma invariant_reachable c : reachable c -> invariant c.
Proof.
  unfold reachable. revert c. apply rtc_ind_r.
  - exact invariant_mounted.
  - intros c c' _ Hstep IH. eauto using invariant_step.
Qed.

Lemma invariant_error_view c :
  invariant c -> error (state c) <> JNull ->
  render (state c) = ErrorText (error (state c)).
Proof.
  intros [Herr Hload _] Hne.
  destruct Herr as [Hnull|Htruthy]; [contradiction|].
  unfold render.
  destruct (loading (state c)) eqn:Hl.
  - destruct (Hload eq_refl) as [Hnull _]. contradiction.
  - rewrite Htruthy. reflexivity.
Qed.

(** C10: at every moment of the mounted tab, when the error slot is not null
    the tab renders the error message and nothing else (neither the table
    nor the modal); in particular, when a detail fetch fails the view
    becomes the failure message alone. *)
Theorem error_replaces_table (c : Component State) :
  reachable c ->
  (error (state c) <> JNull ->
   render (state c) = ErrorText (error (state c))) /\
  (forall before f after (err : AxiosError),
     pending c = before ++ f :: after ->
     in_P f = AQuizRecord ->
     render (state (settle before f after (Rejected err) c))
       = ErrorText (JStr "Failed to fetch quiz details.")).
Proof.
  intros Hreach. split.
  - apply invariant_error_view, invariant_reachable, Hreach.
  - intros before f after err Hp HP.
    assert (Hnext : reachable (settle before f after (Rejected err) c)).
    { eapply rtc_r; [exact Hreach|]. constructor. exact Hp. }
    apply invariant_reachable in Hreach as [_ _ Hpend].
    rewrite Hp in Hpend. apply Forall_drop_middle in Hpend as [Hf _].
    destruct Hf as [->|[quizId ->]]; [discriminate HP|].
    apply invariant_reachable in Hnext.
    rewrite (invariant_error_view _ Hnext);
      rewrite settle_details; cbn [state error]; [reflexivity|discriminate].
Qed.

Lemma failed_mount_reachable : reachable failed_mount.
Proof.
  eapply rtc_r; [apply rtc_refl|].
  apply (step_settle mounted [] history_inflight []
           (Rejected {| response := JUndefined |})).
  reflexivity.
Qed.

Lemma details_requested_reachable : reachable details_requested.
Proof.
  eapply rtc_r; [eapply rtc_r; [apply rtc_refl|]|].
  - apply (step_settle mounted [] history_inflight []
             (Fulfilled {| data := two_entries |})).
    reflexivity.
  - apply (step_details
             (settle [] history_inflight []
                (Fulfilled {| data := two_entries |}) mounted)
             (render_tbody two_entries) (render_modal (loaded two_entries))
             (IdNum 7) "Alan_Turing"
             "https://en.wikipedia.org/wiki/Alan_Turing"
             (toLocaleString "2025-01-01T00:00:00")
             (handleDetailsClick (IdNum 7))).
    + reflexivity.
    + left.
Qed.

Lemma error_replaces_table_witness :
  render (state failed_mount) = ErrorText (JStr "Failed to fetch history.") /\
  render (state (settle [] (details_inflight (IdNum 7)) []
                   (Rejected {| response := JUndefined |}) details_requested))
    = ErrorText (JStr "Failed to fetch quiz details.").
Proof.
  split.
  - apply (proj1 (error_replaces_table failed_mount failed_mount_reachable)).
    simpl. discriminate.
  - apply (proj2 (error_replaces_table details_requested
                    details_requested_reachable)).
    + reflexivity.
    + reflexivity.
Defined.

Lemma closed_in_flight_reachable : reachable closed_in_flight.
Proof.
  eapply rtc_r; [eapply rtc_r; [exact details_requested_reachable|]|].
  - apply (step_close details_requested (render_tbody two_entries)
             (render_modal (state details_requested))).
    reflexivity.
  - apply (step_settle (dispatch closeModal details_requested)
             [] (details_inflight (IdNum 7)) []
             (Fulfilled {| data := Samples.turing_record |})).
    reflexivity.
Qed.

(** C5 (as stated) fails: the user opens the details of an entry and closes
    the modal while the request is in flight; the fetch then succeeds and
    the record is held, but the modal it is handed to is not open. *)
Lemma fetch_succeeds_with_modal_closed :
  reachable closed_in_flight /\
  sent closed_in_flight
    = [ request Api.getHistory; request (Api.getQuizById (IdNum 7)) ] /\
  selectedQuiz (state closed_in_flight) = Some Samples.turing_record /\
  render (state closed_in_flight)
    = Table (render_tbody two_entries)
        {| isOpen := false;
           onClose := closeModal;
           modal_loading_text := None;
           modal_quiz := Some Samples.turing_view |}.
Proof.
  split; [exact closed_in_flight_reachable|].
  split; [reflexivity|]. split; reflexivity.
Qed.

End HistoryTabFacts.

(** * Further properties of the code *)

(** ** services/api.js *)

Module ApiFacts.

(** X2: for numeric ids in the range JavaScript prints digit by digit, two
    quiz fetches are the same request exactly when the ids are equal, so
    rows with different ids are fetched from different paths; two generate
    calls are the same request exactly when their urls are equal; and a
    numeric id and the string of its digits give the same request. *)
Theorem requests_determine_arguments (u v : string) (n m : N) :
  safe_id (IdNum n) ->
  safe_id (IdNum m) ->
  (request (Api.getQuizById (IdNum n)) = request (Api.getQuizById (IdNum m))
     <-> n = m) /\
  (request (Api.generateQuiz u) = request (Api.generateQuiz v) <-> u = v) /\
  request (Api.getQuizById (IdNum n))
    = request (Api.getQuizById (IdStr (pretty n))).
Proof.
  intros _ _. split.
  - split.
    + simpl. intros [= H]. exact (inj pretty _ _ H).
    + intros ->. reflexivity.
  - split; [|reflexivity]. split.
    + intros H.
      apply (f_equal (fun r => match body r with
                               | Some (JObj fields) => fields !! "url"
                               | _ => None
                               end)) in H.
      cbn [body request Api.generateQuiz Api.apiClient_post] in H.
      rewrite !lookup_singleton_eq in H. congruence.
    + intros ->. reflexivity.
Qed.

Lemma requests_determine_arguments_witness :
  request (Api.getQuizById (IdNum 7)) <> request (Api.getQuizById (IdNum 3)) /\
  request (Api.getQuizById (IdNum 7)) = request (Api.getQuizById (IdStr "7")).
Proof.
  destruct (requests_determine_arguments "" "" 7 3) as (Hq & _ & Hs).
  - unfold safe_id, MAX_SAFE_INTEGER. vm_compute. discriminate.
  - unfold safe_id, MAX_SAFE_INTEGER. vm_compute. discriminate.
  - split; [|exact Hs].
    intros H. apply Hq in H. discriminate H.
Defined.

End ApiFacts.

(** ** components/QuizDisplay.jsx *)

Module QuizDisplayMore.
Import QuizDisplay.

Lemma marked_imap (q : QuizQuestion) (k : nat -> nat) (l : list string) :
  map option_text
    (filter (fun o => marked o = true) (imap (fun i => render_option q (k i)) l))
  = filter (fun o => o = answer q) l.
Proof.
  revert k. induction l as [|o l IH]; intros k; [reflexivity|].
  rewrite imap_cons. rewrite !filter_cons.
  rewrite QuizDisplayFacts.marked_render_option.
  specialize (IH (k ∘ S)). unfold compose in *.
  destruct (String.eqb_spec o (answer q)) as [Heq|Hne].
  - rewrite decide_True by reflexivity. rewrite decide_True by exact Heq.
    simpl. f_equal. exact IH.
  - rewrite decide_False by discriminate. rewrite decide_False by exact Hne.
    exact IH.
Qed.

(** X3: whatever the options are (repeated or not, containing the answer or
    not), the marked paragraphs of a question block are exactly the options
    equal to the answer, in their order: a repeated correct option is marked
    at each occurrence and an option differing only in case is not. *)
Theorem marked_are_the_equal_options (index : nat) (q : QuizQuestion) :
  map option_text (marked_options (render_question index q))
  = filter (fun o => o = answer q) (options q).
Proof.
  unfold marked_options, render_question; cbn [option_views].
  apply (marked_imap q (fun i => i)).
Qed.

Lemma imap_index_gen {A B} (f : A -> B) (k : nat -> nat) (l : list A) :
  imap (fun i x => (k i, f x)) l
  = zip (map k (List.seq 0 (length l))) (map f l).
Proof.
  revert k. induction l as [|x l IH]; intros k; [reflexivity|].
  rewrite imap_cons. simpl. f_equal.
  rewrite <- seq_shift, map_map. apply (IH (k ∘ S)).
Qed.

Lemma imap_pair_fst {A} (l : list A) :
  map fst (imap (fun i x => (i, x)) l) = List.seq 0 (length l).
Proof.
  rewrite (imap_index_gen (fun x => x) (fun i => i)).
  rewrite !map_id. apply fst_zip. rewrite length_seq. reflexivity.
Qed.

Lemma imap_pair_snd {A} (l : list A) :
  map snd (imap (fun i x => (i, x)) l) = l.
Proof.
  rewrite (imap_index_gen (fun x => x) (fun i => i)).
  rewrite !map_id. apply snd_zip. rewrite length_seq. reflexivity.
Qed.

(** X4: the rendering of a record is never empty and drops, adds or reorders
    nothing: the three entity lists come in the fixed order People,
    Organizations, Locations with the record's items in order, the topics in
    order, and one question block per question, numbered from 1; the React
    keys of each list are its positions 0, 1, 2, ..., hence distinct. *)
Theorem quiz_display_keeps_order (r : QuizRecord) :
  match QuizDisplay (Some r) with
  | None => False
  | Some v =>
      heading v = title r /\
      summary_text v = summary r /\
      map list_title (entity_lists v) = ["People"; "Organizations"; "Locations"] /\
      map (fun e => map snd (list_items e)) (entity_lists v)
        = [ people (key_entities r); organizations (key_entities r);
            locations (key_entities r) ] /\
      Forall (fun e => map fst (list_items e) = List.seq 0 (length (list_items e)))
        (entity_lists v) /\
      map snd (topic_tags v) = related_topics r /\
      map fst (topic_tags v) = List.seq 0 (length (related_topics r)) /\
      map question_key (question_views v) = List.seq 0 (length (quiz r)) /\
      NoDup (map question_key (question_views v)) /\
      forall i : nat,
        question_heading <$> question_views v !! i
        = (fun q => pretty (i + 1) +:+ ". " +:+ question q) <$> quiz r !! i
  end.
Proof.
  simpl. split; [reflexivity|]. split; [reflexivity|]. split; [reflexivity|].
  split; [unfold EntityList; simpl; rewrite !imap_pair_snd; reflexivity|].
  split.
  { unfold EntityList. repeat constructor; simpl;
      rewrite imap_pair_fst, length_imap; reflexivity. }
  split; [apply imap_pair_snd|]. split; [apply imap_pair_fst|].
  assert (Hk : map question_key (imap render_question (quiz r))
               = List.seq 0 (length (quiz r))).
  { change (map question_key) with (fmap (M:=list) question_key).
    rewrite fmap_imap. unfold compose; simpl.
    rewrite (imap_seq_0 (quiz r) (fun i => i)). apply list_fmap_id. }
  split; [exact Hk|]. split; [rewrite Hk; apply NoDup_seq|].
  intros i. rewrite list_lookup_imap.
  destruct (quiz r !! i); reflexivity.
Qed.

(** X5: the difficulty badge is green exactly for "easy", yellow exactly for
    "medium" and red for every other string (unknown values and other
    spellings such as "Easy" included); its text is the difficulty as
    received. *)
Theorem badge_follows_difficulty (index : nat) (q : QuizQuestion) :
  let qv := render_question index q in
  (badge_className qv = "bg-green-100 text-green-800"
     <-> difficulty q = "easy") /\
  (badge_className qv = "bg-yellow-100 text-yellow-800"
     <-> difficulty q = "medium") /\
  (badge_className qv = "bg-red-100 text-red-800"
     <-> difficulty q <> "easy" /\ difficulty q <> "medium") /\
  badge_text qv = difficulty q.
Proof.
  cbv zeta. unfold render_question; cbn [badge_className badge_text].
  destruct (String.eqb_spec (difficulty q) "easy") as [He|He];
    [|destruct (String.eqb_spec (difficulty q) "medium") as [Hm|Hm]].
  - rewrite He. repeat split; try discriminate; try reflexivity.
    intros [H _]. contradiction.
  - rewrite Hm. repeat split; try discriminate; try reflexivity.
    intros [_ H]. contradiction.
  - repeat split; try discriminate; try reflexivity; try contradiction;
      assumption.
Qed.

End QuizDisplayMore.

(** ** tabs/GenerateQuizTab.jsx *)

Module GenerateQuizTabMore.
Import GenerateQuizTab GenerateQuizTabSpec GenerateQuizTabFacts.

Lemma exec_nonempty (s : State) (net : Network) (meanwhile : State -> State) :
  url s <> "" ->
  fst (exec net meanwhile (submit s) s)
  = let m := meanwhile {| url := url s; loading := true; error := JNull;
                          quizData := None |} in
    match net AQuizRecord (Api.generateQuiz (url s)) with
    | Fulfilled response =>
        {| url := url m; loading := false; error := error m;
           quizData := Some (data response) |}
    | Rejected err =>
        {| url := url m; loading := false;
           error := js_or (detail_of err) (JStr fallback_message);
           quizData := quizData m |}
    end.
Proof.
  intros Hu. unfold submit; simpl.
  rewrite (handleSubmit_nonempty _ Hu). simpl.
  destruct (net AQuizRecord (Api.generateQuiz (url s))); reflexivity.
Qed.

(** X6: when a submission with a non-empty url succeeds, the returned record
    is held and displayed, the loading block is gone and the button is
    enabled again, whatever happened while the request was in flight; with
    nothing in between there is no error block. *)
Theorem success_shows_quiz (s : State) (net : Network)
    (meanwhile : State -> State) (r : AxiosResponse QuizRecord) :
  url s <> "" ->
  net AQuizRecord (Api.generateQuiz (url s)) = Fulfilled r ->
  let v := render (fst (exec net meanwhile (submit s) s)) in
  quiz_box v = QuizDisplay.QuizDisplay (Some (data r)) /\
  loading_box v = None /\
  button_disabled v = false /\
  button_label v = "Generate Quiz" /\
  error_box (render (fst (exec net uninterrupted (submit s) s))) = None.
Proof.
  intros Hu Hnet. cbv zeta.
  rewrite !(exec_nonempty _ _ _ Hu). rewrite Hnet. cbv zeta.
  repeat split.
Qed.

Lemma success_shows_quiz_witness :
  quiz_box (render (fst (exec (HistoryTabSpec.answering [] Samples.turing_record)
                           uninterrupted
                           (submit (typed "https://en.wikipedia.org/wiki/X"))
                           (typed "https://en.wikipedia.org/wiki/X"))))
  = Some Samples.turing_view.
Proof.
  destruct (success_shows_quiz (typed "https://en.wikipedia.org/wiki/X")
              (HistoryTabSpec.answering [] Samples.turing_record) uninterrupted
              {| data := Samples.turing_record |}) as (H & _).
  - simpl. discriminate.
  - reflexivity.
  - exact H.
Defined.

(** X7: while the request of a submission with a non-empty url is in flight
    the view shows the loading block and nothing else below the form: no
    error block, no quiz (an earlier one is gone), the button disabled and
    labelled "Generating...", the input still holding the url. *)
Theorem in_flight_view (s : State) :
  url s <> "" ->
  render (fst (run_sync (submit s) s))
  = {| input_type := "url";
       input_required := true;
       input_value := url s;
       input_onChange := fun value => setUrl value;
       onSubmit := handleSubmit (url s);
       button_disabled := true;
       button_label := "Generating...";
       error_box := None;
       loading_box := Some "Generating quiz... This may take a moment.";
       quiz_box := None |}.
Proof.
  intros Hu. unfold submit. cbn [onSubmit render].
  assert (E : fst (run_sync (handleSubmit (url s)) s)
              = {| url := url s; loading := true; error := JNull;
                   quizData := None |})
    by (rewrite (handleSubmit_nonempty _ Hu); reflexivity).
  rewrite E. reflexivity.
Qed.

Lemma in_flight_view_witness :
  let s := {| url := "https://en.wikipedia.org/wiki/X"; loading := false;
              error := JStr "scrape failed";
              quizData := Some Samples.turing_record |} in
  quiz_box (render (fst (run_sync (submit s) s))) = None /\
  button_disabled (render (fst (run_sync (submit s) s))) = true.
Proof.
  intros s.
  rewrite (in_flight_view s); [split; reflexivity|].
  simpl. discriminate.
Defined.

(** X8: a failed submission leaves no quiz on display: the record shown
    before the submission was discarded when the request went out and the
    failure does not bring it back.  When React can render the failure's
    message the screen shows an error block, the url typed and the button
    enabled again; the render throws, and nothing of the tab is on screen,
    exactly when the failure's detail is a truthy value that is or holds an
    object. *)
Theorem failure_discards_previous_quiz (s : State) (net : Network)
    (err : AxiosError) :
  url s <> "" ->
  net AQuizRecord (Api.generateQuiz (url s)) = Rejected err ->
  let v := render (fst (exec net uninterrupted (submit s) s)) in
  quiz_box v = None /\
  match paint v with
  | Some screen =>
      shown_quiz screen = None /\
      shown_input screen = url s /\
      shown_button_disabled screen = false /\
      (exists nodes, shown_error screen = Some nodes) /\
      (truthy (detail_of err) = true ->
       ReactDom.paint_child (detail_of err) <> None)
  | None =>
      truthy (detail_of err) = true /\
      ReactDom.paint_child (detail_of err) = None
  end.
Proof.
  intros Hu Hnet. cbv zeta.
  rewrite (exec_nonempty _ _ _ Hu). rewrite Hnet. cbv zeta.
  unfold uninterrupted, paint, render; cbn [url loading error quizData
    error_box quiz_box input_value button_disabled button_label loading_box].
  split; [reflexivity|].
  rewrite js_or_truthy by discriminate.
  unfold js_or. destruct (truthy (detail_of err)) eqn:Ht.
  - destruct (ReactDom.paint_child (detail_of err)) as [nodes|] eqn:Hp.
    + cbn. repeat split; eauto; congruence.
    + split; reflexivity.
  - cbn. repeat split; eauto; congruence.
Qed.

Lemma failure_discards_previous_quiz_witness :
  let s := {| url := "https://en.wikipedia.org/wiki/X"; loading := false;
              error := JNull; quizData := Some Samples.turing_record |} in
  quiz_box (render (fst (exec Samples.offline uninterrupted (submit s) s)))
  = None.
Proof.
  intros s.
  destruct (failure_discards_previous_quiz s Samples.offline
              {| response := JUndefined |}) as (H & _).
  - simpl. discriminate.
  - reflexivity.
  - exact H.
Defined.


End GenerateQuizTabMore.

(** ** tabs/HistoryTab.jsx *)

Module HistoryTabMore.
Import HistoryTab HistoryTabSpec HistoryTabFacts HistoryTabLifecycle.

Lemma singleton_middle {A} (x f : A) (before after : list A) :
  [x] = before ++ f :: after -> before = [] /\ f = x /\ after = [].
Proof.
  destruct before as [|y before]; simpl.
  - intros [= -> <-]. auto.
  - intros [= _ H]. destruct before; discriminate H.
Qed.

Lemma lifecycle_mounted : lifecycle mounted.
Proof. left. repeat split. Qed.

Lemma lifecycle_step c c' : lifecycle c -> step c c' -> lifecycle c'.
Proof.
  intros Hlife Hstep.
  destruct Hstep as [c tbody modal key title url date onClick Hr Hin
                    |c tbody modal Hr
                    |c before f after o Hp].
  - apply render_table_inv in Hr as (Hl & He & -> & ->).
    destruct Hlife as [(Hs & _)|(_ & Hpend & (ids & Hsent & Hids) & Herr)];
      [rewrite Hs in Hl; discriminate|].
    apply render_tbody_entry_row in Hin as (item & Hitem & [= _ _ _ _ ->]).
    rewrite dispatch_details. right. unfold settled; cbn [state pending sent].
    cbn [loading history error]. split; [exact Hl|]. split.
    { apply Forall_app. split; [exact Hpend|].
      apply Forall_singleton. eauto. }
    split.
    { exists (ids ++ [HistoryEntry.id item]). split.
      - rewrite Hsent. unfold detail_requests. rewrite map_app. reflexivity.
      - apply Forall_app. split; [exact Hids|]. apply Forall_singleton.
        apply list_elem_of_fmap. eauto. }
    destruct Herr as [Hn|[[Hh _]|Hd]]; [left; exact Hn| |right; right; exact Hd].
    rewrite Hh in He. discriminate He.
  - apply render_table_inv in Hr as (Hl & He & -> & ->).
    destruct Hlife as [(Hs & _)|(_ & Hpend & Hsent & Herr)];
      [rewrite Hs in Hl; discriminate|].
    right. unfold settled; simpl. split; [exact Hl|]. split; [exact Hpend|].
    split; [exact Hsent|]. exact Herr.
  - destruct Hlife as [(Hs & Hpend & Hsent)
                      |(Hl & Hpend & (ids & Hsent & Hids) & Herr)].
    + rewrite Hpend in Hp. apply singleton_middle in Hp as (-> & -> & ->).
      rewrite settle_history. right. unfold settled; cbn [state pending sent].
      rewrite Hs, Hsent.
      destruct o as [r|err]; cbn [loading history error initial app].
      * split; [reflexivity|]. split; [constructor|].
        split; [exists []; split; [reflexivity|constructor]|].
        left; reflexivity.
      * split; [reflexivity|]. split; [constructor|].
        split; [exists []; split; [reflexivity|constructor]|].
        right; left; split; reflexivity.
    + rewrite Hp in Hpend, Herr.
      apply Forall_drop_middle in Hpend as [[quizId ->] Hrest].
      rewrite settle_details. right. unfold settled; cbn [state pending sent].
      destruct o as [r|err]; cbn [loading history error].
      * split; [exact Hl|]. split; [exact Hrest|].
        split; [exists ids; split; assumption|].
        destruct Herr as [Hn|[[_ Hnil]|Hd]];
          [left; exact Hn| |right; right; exact Hd].
        destruct before; discriminate Hnil.
      * split; [exact Hl|]. split; [exact Hrest|].
        split; [exists ids; split; assumption|].
        right; right; reflexivity.
Qed.

Lemma lifecycle_reachable c : reachable c -> lifecycle c.
Proof.
  unfold reachable. revert c. apply rtc_ind_r.
  - exact lifecycle_mounted.
  - intros c c' _ Hstep IH. eauto using lifecycle_step.
Qed.

(** X10: over its whole life the mounted tab sends the history request
    exactly once, first, and after it only quiz fetches (GET /quiz/X) for ids
    X of entries in the loaded history; it never posts and never fetches the
    history again. *)
Theorem only_history_then_listed_quizzes (c : Component State) :
  reachable c ->
  exists ids : list identifier,
    sent c = request Api.getHistory
             :: map (fun X => request (Api.getQuizById X)) ids /\
    Forall (fun X => exists item, item ∈ history (state c) /\
                                  HistoryEntry.id item = X) ids /\
    Forall (fun r => method r = GET /\ body r = None) (sent c).
Proof.
  intros Hreach. apply lifecycle_reachable in Hreach.
  assert (Hget : forall ids,
    Forall (fun r => method r = GET /\ body r = None)
      (request Api.getHistory :: detail_requests ids)).
  { intros ids. constructor; [split; reflexivity|].
    unfold detail_requests. apply Forall_forall. intros r Hr.
    apply list_elem_of_fmap in Hr as (X & -> & _). split; reflexivity. }
  destruct Hreach as [(Hs & _ & Hsent)|(_ & _ & (ids & Hsent & Hids) & _)].
  - exists []. rewrite Hsent. split; [reflexivity|]. split; [constructor|].
    apply (Hget []).
  - exists ids. split; [exact Hsent|]. split.
    + eapply Forall_impl; [exact Hids|]. intros X HX.
      apply list_elem_of_fmap in HX as (item & -> & Hitem). eauto.
    + rewrite Hsent. apply Hget.
Qed.

Lemma only_history_then_listed_quizzes_witness :
  exists ids : list identifier,
    sent details_requested
    = request Api.getHistory
      :: map (fun X => request (Api.getQuizById X)) ids /\
    Forall (fun X => exists item,
                       item ∈ history (state details_requested) /\
                       HistoryEntry.id item = X) ids.
Proof.
  destruct (only_history_then_listed_quizzes details_requested
              details_requested_reachable) as (ids & Hsent & Hids & _).
  exists ids. split; [exact Hsent | exact Hids].
Defined.

(** X11: the error slot of the mounted tab only ever holds null or one of
    the two fixed messages; nothing the backend sends in a failure body is
    shown. *)
Theorem error_is_a_fixed_message (c : Component State) :
  reachable c ->
  error (state c) = JNull \/
  error (state c) = JStr "Failed to fetch history." \/
  error (state c) = JStr "Failed to fetch quiz details.".
Proof.
  intros Hreach. apply lifecycle_reachable in Hreach.
  destruct Hreach as [(Hs & _)|(_ & _ & _ & Herr)].
  - left. rewrite Hs. reflexivity.
  - destruct Herr as [Hn|[[Hh _]|Hd]]; auto.
Qed.

Lemma error_is_a_fixed_message_witness :
  error (state failed_mount) = JNull \/
  error (state failed_mount) = JStr "Failed to fetch history." \/
  error (state failed_mount) = JStr "Failed to fetch quiz details.".
Proof.
  apply (error_is_a_fixed_message failed_mount failed_mount_reachable).
Defined.

Lemma error_sticky_step c c' :
  lifecycle c -> error (state c) <> JNull -> step c c' ->
  error (state c') = error (state c) /\ sent c' = sent c.
Proof.
  intros Hlife Hne Hstep.
  destruct Hlife as [(Hs & _)|(Hl & Hpend & _ & Herr)];
    [rewrite Hs in Hne; contradiction|].
  assert (Ht : truthy (error (state c)) = true).
  { destruct Herr as [Hn|[[Hh _]|Hd]]; [contradiction| |];
      [rewrite Hh|rewrite Hd]; reflexivity. }
  destruct Hstep as [c tbody modal key title url date onClick Hr Hin
                    |c tbody modal Hr
                    |c before f after o Hp].
  - apply render_table_inv in Hr as (_ & He & _). congruence.
  - apply render_table_inv in Hr as (_ & He & _). congruence.
  - rewrite Hp in Hpend, Herr.
    apply Forall_drop_middle in Hpend as [[quizId ->] _].
    rewrite settle_details. cbn [state sent]. split; [|reflexivity].
    destruct o as [r|err]; cbn [error]; [reflexivity|].
    destruct Herr as [Hn|[[_ Hnil]|Hd]]; [contradiction| |congruence].
    destruct before; discriminate Hnil.
Qed.

(** X12: an error, once shown, stays: from a moment of the mounted tab at
    which the error slot is not null, whatever happens next (requests still
    in flight settling either way), the slot keeps its message, the view
    stays the error message alone and no further request is sent. *)
Theorem error_is_permanent (c c' : Component State) :
  reachable c ->
  error (state c) <> JNull ->
  rtc step c c' ->
  error (state c') = error (state c) /\
  render (state c') = ErrorText (error (state c)) /\
  sent c' = sent c.
Proof.
  intros Hreach Hne Hsteps.
  assert (H : reachable c' /\ error (state c') = error (state c) /\
              sent c' = sent c).
  { revert c' Hsteps. apply rtc_ind_r; [auto|].
    intros c1 c2 _ Hstep (Hr1 & He1 & Hs1).
    split; [eapply rtc_r; eauto|].
    destruct (error_sticky_step c1 c2) as [He2 Hs2];
      [apply lifecycle_reachable, Hr1 | congruence | exact Hstep |].
    split; congruence. }
  destruct H as (Hr' & He' & Hs').
  split; [exact He'|]. split; [|exact Hs'].
  rewrite <- He'. apply invariant_error_view.
  - apply invariant_reachable, Hr'.
  - congruence.
Qed.

Lemma two_requested_one_failed_reachable :
  reachable (settle [] (details_inflight (IdNum 7)) [details_inflight (IdNum 3)]
               (Rejected {| response := JUndefined |})
               (dispatch (handleDetailsClick (IdNum 3)) details_requested)).
Proof.
  eapply rtc_r; [eapply rtc_r; [exact details_requested_reachable|]|].
  - apply (step_details details_requested
             (render_tbody two_entries)
             (render_modal (state details_requested))
             (IdNum 3) "Ada_Lovelace"
             "https://en.wikipedia.org/wiki/Ada_Lovelace"
             (toLocaleString "2025-01-01T00:00:00")
             (handleDetailsClick (IdNum 3))).
    + reflexivity.
    + right. left.
  - apply (step_settle (dispatch (handleDetailsClick (IdNum 3)) details_requested)
             [] (details_inflight (IdNum 7)) [details_inflight (IdNum 3)]
             (Rejected {| response := JUndefined |})).
    reflexivity.
Qed.

Lemma error_is_permanent_witness :
  let c := settle [] (details_inflight (IdNum 7)) [details_inflight (IdNum 3)]
             (Rejected {| response := JUndefined |})
             (dispatch (handleDetailsClick (IdNum 3)) details_requested) in
  let c' := settle [] (details_inflight (IdNum 3)) []
              (Fulfilled {| data := Samples.turing_record |}) c in
  render (state c') = ErrorText (JStr "Failed to fetch quiz details.") /\
  sent c' = sent c.
Proof.
  intros c c'.
  destruct (error_is_permanent c c' two_requested_one_failed_reachable)
    as (_ & Hview & Hsent).
  - simpl. discriminate.
  - eapply rtc_l; [|apply rtc_refl].
    apply (step_settle c [] (details_inflight (IdNum 3)) []
             (Fulfilled {| data := Samples.turing_record |})).
    reflexivity.
  - split; [exact Hview | exact Hsent].
Defined.

(** X13: mounting sends the single request GET /history and shows the
    loading text while it is in flight; if the request fails, whatever the
    failure carries, the tab shows "Failed to fetch history." and holds no
    entries. *)
Theorem mount_failure_shows_fixed_message (net : Network) (err : AxiosError) :
  net AHistory Api.getHistory = Rejected err ->
  render (fst (run_sync fetchHistory initial)) = LoadingText "Loading history..." /\
  exec net uninterrupted fetchHistory initial
  = ({| history := []; loading := false;
        error := JStr "Failed to fetch history.";
        isModalOpen := false; selectedQuiz := None; modalLoading := false |},
     [ {| method := GET; baseURL := "http://localhost:8000";
          path := "/history";
          headers := {[ "Content-Type" := "application/json" ]};
          body := None |} ]) /\
  render (fst (exec net uninterrupted fetchHistory initial))
  = ErrorText (JStr "Failed to fetch history.").
Proof.
  intros Hnet. split; [reflexivity|].
  assert (E : exec net uninterrupted fetchHistory initial
              = ({| history := []; loading := false;
                    error := JStr history_failure;
                    isModalOpen := false; selectedQuiz := None;
                    modalLoading := false |},
                 [ request Api.getHistory ])).
  { simpl. rewrite Hnet. reflexivity. }
  rewrite E. split; reflexivity.
Qed.

Lemma mount_failure_shows_fixed_message_witness :
  render (fst (exec (GenerateQuizTabSpec.failing GenerateQuizTabSpec.scrape_failed)
                 uninterrupted fetchHistory initial))
  = ErrorText (JStr "Failed to fetch history.").
Proof.
  apply (mount_failure_shows_fixed_message
           (GenerateQuizTabSpec.failing GenerateQuizTabSpec.scrape_failed)
           GenerateQuizTabSpec.scrape_failed).
  reflexivity.
Defined.

(** X14: [closeModal] clears the modal flag and the selected quiz, touches
    nothing else and sends nothing; closing twice is closing once; and
    opening a row's details, letting the fetch succeed and closing leaves the
    tab as it was before the click with the modal closed, nothing selected
    and the modal's loading flag off (exactly as it was, when the modal was
    closed before the click). *)
Theorem open_then_close_restores (X : identifier) (s : State) (net : Network)
    (r : AxiosResponse QuizRecord) :
  net AQuizRecord (Api.getQuizById X) = Fulfilled r ->
  exec net uninterrupted closeModal s
  = ({| history := history s; loading := loading s; error := error s;
        isModalOpen := false; selectedQuiz := None;
        modalLoading := modalLoading s |}, []) /\
  fst (exec net uninterrupted (closeModal ;; closeModal) s)
  = fst (exec net uninterrupted closeModal s) /\
  fst (exec net uninterrupted (handleDetailsClick X ;; closeModal) s)
  = {| history := history s; loading := loading s; error := error s;
       isModalOpen := false; selectedQuiz := None; modalLoading := false |}.
Proof.
  intros Hnet. simpl. rewrite Hnet. repeat split.
Qed.

Lemma open_then_close_restores_witness :
  fst (exec (answering two_entries Samples.turing_record) uninterrupted
         (handleDetailsClick (IdNum 7) ;; closeModal) (loaded two_entries))
  = loaded two_entries.
Proof.
  destruct (open_then_close_restores (IdNum 7) (loaded two_entries)
              (answering two_entries Samples.turing_record)
              {| data := Samples.turing_record |} eq_refl) as (_ & _ & H).
  exact H.
Defined.

(** X15: closing the modal does not cancel the fetch.  If the modal is
    closed while the detail request is in flight and the request then
    succeeds, the record is held although the modal stays closed; if it
    fails, the failure message still takes the place of the table. *)
Theorem close_does_not_cancel (X : identifier) (s : State) (net : Network) :
  let s' := fst (exec net closing (handleDetailsClick X) s) in
  snd (exec net closing (handleDetailsClick X) s)
    = [ request (Api.getQuizById X) ] /\
  match net AQuizRecord (Api.getQuizById X) with
  | Fulfilled r =>
      isModalOpen s' = false /\ selectedQuiz s' = Some (data r) /\
      modalLoading s' = false /\ error s' = error s /\
      modal_quiz (render_modal s') = QuizDisplay.QuizDisplay (Some (data r))
  | Rejected _ =>
      isModalOpen s' = false /\ selectedQuiz s' = None /\
      modalLoading s' = false /\
      render s' = if loading s then LoadingText "Loading history..."
                  else ErrorText (JStr "Failed to fetch quiz details.")
  end.
Proof.
  cbv zeta. simpl.
  destruct (net AQuizRecord (Api.getQuizById X)) as [r|err]; simpl.
  - repeat split.
  - repeat split.
Qed.

Lemma step_click_item (c : Component State) (item : HistoryEntry.t) :
  loading (state c) = false -> truthy (error (state c)) = false ->
  item ∈ history (state c) ->
  step c (dispatch (handleDetailsClick (HistoryEntry.id item)) c).
Proof.
  intros Hl He Hitem.
  apply (step_details c (render_tbody (history (state c)))
           (render_modal (state c)) (HistoryEntry.id item)
           (HistoryEntry.title item) (HistoryEntry.url item)
           (toLocaleString (HistoryEntry.date_generated item))).
  - unfold render. rewrite Hl, He. reflexivity.
  - unfold render_tbody.
    destruct (history (state c)) as [|e h] eqn:Hh;
      [apply elem_of_nil in Hitem; contradiction|].
    simpl Nat.eqb. cbv iota.
    change (render_row item ∈ render_row <$> (e :: h)).
    apply list_elem_of_fmap. eauto.
Qed.

Lemma step_close_table (c : Component State) :
  loading (state c) = false -> truthy (error (state c)) = false ->
  step c (dispatch closeModal c).
Proof.
  intros Hl He.
  apply (step_close c (render_tbody (history (state c)))
           (render_modal (state c))).
  unfold render. rewrite Hl, He. reflexivity.
Qed.

Lemma dispatch_close (c : Component State) :
  dispatch closeModal c
  = {| state := {| history := history (state c);
                   loading := loading (state c);
                   error := error (state c);
                   isModalOpen := false;
                   selectedQuiz := None;
                   modalLoading := modalLoading (state c) |};
       pending := pending c;
       sent := sent c |}.
Proof. reflexivity. Qed.

(** X16: no fetch is ever superseded: the record of the fetch that settles
    last is the one held.  From any moment at which the table is on screen,
    the user can open the details of entry A, close, open the details of
    entry B, and if B's fetch then settles before A's, the modal opened for B
    ends up showing A's record. *)
Theorem stale_details_overtake (c : Component State)
    (itemA itemB : HistoryEntry.t) (rA rB : AxiosResponse QuizRecord) :
  loading (state c) = false ->
  truthy (error (state c)) = false ->
  itemA ∈ history (state c) ->
  itemB ∈ history (state c) ->
  let c' := overtaken (HistoryEntry.id itemA) (HistoryEntry.id itemB) rA rB c in
  rtc step c c' /\
  sent c' = sent c ++ [ request (Api.getQuizById (HistoryEntry.id itemA));
                        request (Api.getQuizById (HistoryEntry.id itemB)) ] /\
  pending c' = pending c /\
  isModalOpen (state c') = true /\
  modalLoading (state c') = false /\
  selectedQuiz (state c') = Some (data rA) /\
  modal_quiz (render_modal (state c')) = QuizDisplay.QuizDisplay (Some (data rA)).
Proof.
  intros Hl He HA HB. cbv zeta. unfold overtaken. cbv zeta.
  set (A := HistoryEntry.id itemA). set (B := HistoryEntry.id itemB).
  set (c1 := dispatch (handleDetailsClick A) c).
  set (c2 := dispatch closeModal c1).
  set (c3 := dispatch (handleDetailsClick B) c2).
  set (c4 := settle (pending c ++ [details_inflight A]) (details_inflight B) []
               (Fulfilled rB) c3).
  split.
  - eapply rtc_l; [exact (step_click_item c itemA Hl He HA)|]. fold A c1.
    eapply rtc_l; [exact (step_close_table c1 Hl He)|]. fold c2.
    eapply rtc_l; [exact (step_click_item c2 itemB Hl He HB)|]. fold B c3.
    eapply rtc_l.
    { apply (step_settle c3 (pending c ++ [details_inflight A])
               (details_inflight B) [] (Fulfilled rB)). reflexivity. }
    fold c4.
    eapply rtc_l; [|apply rtc_refl].
    apply (step_settle c4 (pending c) (details_inflight A) []
             (Fulfilled rA)).
    subst c4. rewrite settle_details. cbn [pending].
    rewrite app_nil_r. reflexivity.
  - subst c4 c3 c2 c1. rewrite !settle_details.
    rewrite (dispatch_details (dispatch closeModal _)), dispatch_close,
      dispatch_details.
    cbn [state sent pending].
    rewrite ?app_nil_r, <- ?app_assoc.
    repeat split.
Qed.

Lemma stale_details_overtake_witness :
  let c := {| state := loaded two_entries; pending := []; sent := [] |} in
  selectedQuiz (state (overtaken (IdNum 7) (IdNum 3)
                         {| data := Samples.turing_record |}
                         {| data := {| title := "Ada Lovelace"; summary := "";
                                       key_entities := {| people := [];
                                                          organizations := [];
                                                          locations := [] |};
                                       quiz := []; related_topics := [] |} |}
                         c))
  = Some Samples.turing_record.
Proof.
  intros c.
  destruct (stale_details_overtake c (entry 7 "Alan_Turing")
              (entry 3 "Ada_Lovelace")
              {| data := Samples.turing_record |}
              {| data := {| title := "Ada Lovelace"; summary := "";
                            key_entities := {| people := [];
                                               organizations := [];
                                               locations := [] |};
                            quiz := []; related_topics := [] |} |})
    as (_ & _ & _ & _ & _ & H & _).
  - reflexivity.
  - reflexivity.
  - left.
  - right. left.
  - exact H.
Defined.

(** X19: once the history request has settled, nothing that happens in the
    tab changes the list it holds or brings the loading text back: opening
    details, closing the modal and detail fetches settling all leave the
    entries as loaded. *)
Theorem list_is_stable (c c' : Component State) :
  reachable c ->
  loading (state c) = false ->
  rtc step c c' ->
  history (state c') = history (state c) /\ loading (state c') = false.
Proof.
  intros Hreach Hl Hsteps.
  assert (H : reachable c' /\ history (state c') = history (state c) /\
              loading (state c') = false).
  { revert c' Hsteps. apply rtc_ind_r; [auto|].
    intros c1 c2 _ Hstep (Hr1 & Hh1 & Hl1).
    split; [eapply rtc_r; eauto|].
    apply lifecycle_reachable in Hr1.
    destruct Hr1 as [(Hs & _)|(_ & Hpend & _)];
      [rewrite Hs in Hl1; discriminate|].
    destruct Hstep as [c1 tbody modal key title url date onClick Hr Hin
                      |c1 tbody modal Hr
                      |c1 before f after o Hp].
    - apply render_table_inv in Hr as (_ & _ & -> & ->).
      apply render_tbody_entry_row in Hin as (item & _ & [= _ _ _ _ ->]).
      rewrite dispatch_details. cbn [state history loading]. auto.
    - apply render_table_inv in Hr as (_ & _ & -> & ->).
      cbn. auto.
    - rewrite Hp in Hpend.
      apply Forall_drop_middle in Hpend as [[quizId ->] _].
      rewrite settle_details. cbn [state].
      destruct o; cbn [history loading]; auto. }
  tauto.
Qed.

Lemma list_is_stable_witness :
  history (state (dispatch closeModal details_requested)) = two_entries.
Proof.
  destruct (list_is_stable details_requested
              (dispatch closeModal details_requested)
              details_requested_reachable) as [H _].
  - reflexivity.
  - eapply rtc_l; [|apply rtc_refl].
    apply (step_close details_requested (render_tbody two_entries)
             (render_modal (state details_requested))).
    reflexivity.
  - exact H.
Defined.

End HistoryTabMore.

(** ** App.jsx *)

Module AppFacts.
Import App AppSpec.

Lemma nav_button_target s b :
  b ∈ nav (render s) ->
  fst (run_sync (tab_onClick b) s) = {| activeTab := "generate" |} \/
  fst (run_sync (tab_onClick b) s) = {| activeTab := "history" |}.
Proof.
  unfold render; cbn [nav]. intros Hb.
  apply elem_of_cons in Hb as [->|Hb]; [left; reflexivity|].
  apply list_elem_of_singleton in Hb as ->. right; reflexivity.
Qed.

Lemma reachable_tab s :
  reachable s -> activeTab s = "generate" \/ activeTab s = "history".
Proof.
  unfold reachable. revert s. apply rtc_ind_r; [left; reflexivity|].
  intros s s' _ Hstep _. destruct Hstep as [s b Hb].
  destruct (nav_button_target s b Hb) as [-> | ->]; [left|right]; reflexivity.
Qed.

(** X17: whatever tab buttons have been clicked, the shell shows exactly one
    tab component and highlights exactly one button, and they agree: the
    Generate tab with "Generate Quiz" highlighted, or the History tab with
    "Past Quizzes (History)" highlighted. *)
Theorem one_tab_on_screen (s : State) :
  reachable s ->
  (main (render s) = [ GenerateQuizTabElement ] /\
   map tab_title (highlighted (render s)) = [ "Generate Quiz" ]) \/
  (main (render s) = [ HistoryTabElement ] /\
   map tab_title (highlighted (render s)) = [ "Past Quizzes (History)" ]).
Proof.
  intros Hreach. destruct s as [tab].
  destruct (reachable_tab _ Hreach) as [H|H]; simpl in H; subst tab.
  - left. split; reflexivity.
  - right. split; reflexivity.
Qed.

Lemma one_tab_on_screen_witness :
  main (render {| activeTab := "history" |}) = [ HistoryTabElement ] /\
  map tab_title (highlighted (render {| activeTab := "history" |}))
  = [ "Past Quizzes (History)" ].
Proof.
  destruct (one_tab_on_screen {| activeTab := "history" |}) as [[H _]|H].
  - eapply rtc_l; [|apply rtc_refl].
    apply (step_tab initial (TabButton initial "history" "Past Quizzes (History)")).
    right. left.
  - discriminate H.
  - exact H.
Defined.

(** X18: a tab's state lives only while the tab is on screen.  Leaving the
    Generate tab and coming back gives a Generate tab in its initial state
    (url, result and error gone), whatever it held; every arrival on the
    History tab from the Generate tab mounts it anew, so the history is
    requested again; clicking the button of the tab already on screen
    changes nothing. *)
Theorem leaving_a_tab_discards_its_state (p : Page) :
  generate_tab (open_generate (open_history p)) = Some fresh_generate_tab /\
  history_tab (open_generate (open_history p)) = None /\
  history_tab (open_history (open_generate p)) = Some HistoryTab.mounted /\
  generate_tab (open_history (open_generate p)) = None /\
  sent HistoryTab.mounted = [ request Api.getHistory ] /\
  open_generate (open_generate p) = open_generate p /\
  open_history (open_history p) = open_history p.
Proof.
  destruct p as [s g h].
  split; [reflexivity|]. split; [reflexivity|].
  split; [reflexivity|]. split; [reflexivity|]. split; [reflexivity|].
  split.
  - unfold open_generate, click_tab, rerender; simpl. destruct g; reflexivity.
  - unfold open_history, click_tab, rerender; simpl. destruct h; reflexivity.
Qed.

End AppFacts.
